(** * OpenThread platform glue of RIOT: millisecond alarm and radio adapter

    A shallow embedding of [pkg/openthread/contrib/platform_alarm.c] and
    [pkg/openthread/contrib/platform_radio.c].  The C globals become the
    fields of an explicit world record that every operation threads; the
    netdev2 driver, which the C code reaches through a table of function
    pointers, becomes a type class; every call that leaves the file (driver
    calls and upcalls into OpenThread) is appended to a transcript. *)

From Stdlib Require Import ZArith List Bool Lia.
Import ListNotations.
Local Open Scope Z_scope.

(** ** C integer conversions (32-bit [int], two's complement) *)

Definition to_uint8 (z : Z) : Z := z mod 2 ^ 8.
Definition to_uint16 (z : Z) : Z := z mod 2 ^ 16.
Definition to_uint32 (z : Z) : Z := z mod 2 ^ 32.
Definition to_uint64 (z : Z) : Z := z mod 2 ^ 64.
Definition to_int8 (z : Z) : Z := (z + 2 ^ 7) mod 2 ^ 8 - 2 ^ 7.
Definition to_int16 (z : Z) : Z := (z + 2 ^ 15) mod 2 ^ 16 - 2 ^ 15.
Definition to_int (z : Z) : Z := (z + 2 ^ 31) mod 2 ^ 32 - 2 ^ 31.

Definition UINT16_MAX : Z := 65535.

(** ** The millisecond alarm, platform_alarm.c *)

Module Alarm.

(** [msg_t]: only the [type] field is used by this file. *)
Record msg_t := mk_msg { msg_type : Z }.

(** Message type of an alarm event (ot.h). *)
Definition OPENTHREAD_XTIMER_MSG_TYPE_EVENT : Z := 0x2235.

Definition OPENTHREAD_QUEUE_LEN : nat := 5.

(** timex.h *)
Definition US_PER_MS : Z := 1000.

(** The file's statics, together with the part of the kernel they live in:
    [clock_us] is the monotonic microsecond clock behind [xtimer_now_usec],
    [ot_timer] holds the absolute deadline (in microseconds) while the
    timer object is armed, [queue] is the message queue of thread [_pid]. *)
Record alarm_t := mk_alarm {
  clock_us : Z;
  ot_timer : option Z;
  ot_alarm_msg : msg_t;
  _pid : Z;
  queue : list msg_t
}.

Definition set_ot_timer (t : option Z) (a : alarm_t) : alarm_t :=
  mk_alarm (clock_us a) t (ot_alarm_msg a) (_pid a) (queue a).
Definition set_ot_alarm_msg (m : msg_t) (a : alarm_t) : alarm_t :=
  mk_alarm (clock_us a) (ot_timer a) m (_pid a) (queue a).
Definition set_queue (q : list msg_t) (a : alarm_t) : alarm_t :=
  mk_alarm (clock_us a) (ot_timer a) (ot_alarm_msg a) (_pid a) q.
Definition set_clock_us (t : Z) (a : alarm_t) : alarm_t :=
  mk_alarm t (ot_timer a) (ot_alarm_msg a) (_pid a) (queue a).

(** Modelled from the spec: [msg_send] is the kernel's enqueue into the
    bounded event queue of the dispatch loop; it is declared in msg.h and
    defined outside src/.  The notification is appended at once; a full
    queue drops it. *)
Definition msg_send (m : msg_t) (pid : Z) (a : alarm_t) : alarm_t :=
  if (length (queue a) <? OPENTHREAD_QUEUE_LEN)%nat
  then set_queue (queue a ++ [m]) a
  else a.

(** Modelled from the spec: [xtimer_set_msg] is the timer facility's
    "deliver after a duration" (xtimer.h, defined outside src/).  The timer
    object holds one deadline: arming it [offset] microseconds from now
    replaces whatever deadline it held. *)
Definition xtimer_set_msg (offset : Z) (pid : Z) (a : alarm_t) : alarm_t :=
  set_ot_timer (Some (clock_us a + to_uint32 offset)) a.

(** Modelled from the spec: [xtimer_remove] is the timer facility's
    cancellation (xtimer.h, defined outside src/); cancelling a timer that
    is not armed changes nothing. *)
Definition xtimer_remove (a : alarm_t) : alarm_t :=
  match ot_timer a with
  | Some _ => set_ot_timer None a
  | None => a
  end.

(** Modelled from the spec: [xtimer_now_usec] is the clock query of the
    timer facility (xtimer.h), a 32-bit microsecond counter. *)
Definition xtimer_now_usec (a : alarm_t) : Z := to_uint32 (clock_us a).

(** Modelled from the spec: the passage of time up to the instant [t].  The
    timer facility delivers the message the armed timer points to once its
    deadline is reached, and the timer is disarmed. *)
Definition xtimer_advance (t : Z) (a : alarm_t) : alarm_t :=
  let a' := set_clock_us (Z.max t (clock_us a)) a in
  match ot_timer a' with
  | Some deadline =>
      if deadline <=? clock_us a'
      then msg_send (ot_alarm_msg a') (_pid a') (set_ot_timer None a')
      else a'
  | None => a'
  end.

(** [otPlatAlarmMilliStartAt(aInstance, aT0, aDt)]; both times are [uint32_t]. *)
Definition otPlatAlarmMilliStartAt (aT0 aDt : Z) (a : alarm_t) : alarm_t :=
  let a := set_ot_alarm_msg (mk_msg OPENTHREAD_XTIMER_MSG_TYPE_EVENT) a in
  if to_uint32 aDt =? 0 then
    msg_send (ot_alarm_msg a) (_pid a) a
  else
    let dt := to_int (to_uint32 (to_uint32 aDt * US_PER_MS)) in
    xtimer_set_msg dt (_pid a) a.

(** [otPlatAlarmMilliStop(aInstance)] *)
Definition otPlatAlarmMilliStop (a : alarm_t) : alarm_t :=
  xtimer_remove a.

(** [uint32_t otPlatAlarmMilliGetNow(void)] *)
Definition otPlatAlarmMilliGetNow (a : alarm_t) : Z :=
  to_uint32 (xtimer_now_usec a / US_PER_MS).

(** The instant, in microseconds, at which the alarm is due to fire. *)
Definition deadline_us (a : alarm_t) : option Z := ot_timer a.

(** What the interface documents for a nonzero delay: [aDt] milliseconds
    after the reference time [aT0]. *)
Definition documented_deadline_us (aT0 aDt : Z) : Z := (aT0 + aDt) * US_PER_MS.

(** A freshly started alarm thread whose clock reads [t] microseconds. *)
Definition idle_at (t : Z) : alarm_t :=
  mk_alarm t None (mk_msg 0) 3 [].

(** **** The thread that serves the alarm *)

(** Modelled from the spec: [msg_receive] is the kernel's dequeue from the
    bounded event queue (msg.h, defined outside src/).  It hands out the
    oldest message; on an empty queue the caller is suspended, which is the
    answer [None]. *)
Definition msg_receive (a : alarm_t) : option (msg_t * alarm_t) :=
  match queue a with
  | [] => None
  | m :: q => Some (m, set_queue q a)
  end.

(** The calls the thread makes into OpenThread. *)
Inductive upcall_t :=
| otTaskletsProcess
| otPlatAlarmMilliFired.

(** Where the loop stands when the model stops following it: suspended in
    [msg_receive], or still going round. *)
Inductive thread_status :=
| Suspended
| Looping.

(** The [while (1)] of [_openthread_timer_thread], followed for one round per
    element of [pending]; the element is what [otTaskletsArePending] answers
    in that round.  What OpenThread does inside its two entry points is not
    part of the file: they are recorded in [ups]. *)
Fixpoint timer_thread_loop (pending : list bool) (a : alarm_t)
    (ups : list upcall_t) : thread_status * alarm_t * list upcall_t :=
  match pending with
  | [] => (Looping, a, ups)
  | p :: rest =>
      let ups := ups ++ [otTaskletsProcess] in
      if p then timer_thread_loop rest a ups
      else
        match msg_receive a with
        | None => (Suspended, a, ups)
        | Some (msg, a) =>
            if msg_type msg =? OPENTHREAD_XTIMER_MSG_TYPE_EVENT
            then timer_thread_loop rest a (ups ++ [otPlatAlarmMilliFired])
            else timer_thread_loop rest a ups
        end
  end.

(** errno.h *)
Definition EINVAL : Z := 22.

(** [openthread_timer_init]; [created] is what [thread_create] returned. *)
Definition openthread_timer_init (created : Z) (a : alarm_t) : Z * alarm_t :=
  let a := mk_alarm (clock_us a) (ot_timer a) (ot_alarm_msg a) created (queue a) in
  if _pid a <=? 0 then (- EINVAL, a) else (_pid a, a).

(** How many alarm events a list of messages holds, and how many times the
    alarm upcall occurs in a record of upcalls. *)
Definition alarm_events (q : list msg_t) : nat :=
  length (filter (fun m => msg_type m =? OPENTHREAD_XTIMER_MSG_TYPE_EVENT) q).

Definition alarms_fired (ups : list upcall_t) : nat :=
  length (filter (fun u => match u with otPlatAlarmMilliFired => true
                                   | otTaskletsProcess => false end) ups).

End Alarm.

(** ** The radio adapter, platform_radio.c *)

(** *** Types the file takes from headers *)

(** The named properties of the driver interface that this file touches. *)
Inductive netopt_t :=
| NETOPT_CHANNEL
| NETOPT_TX_POWER
| NETOPT_NID
| NETOPT_ADDRESS_LONG
| NETOPT_ADDRESS
| NETOPT_PROMISCUOUSMODE
| NETOPT_STATE.

Definition netopt_eqb (a b : netopt_t) : bool :=
  match a, b with
  | NETOPT_CHANNEL, NETOPT_CHANNEL
  | NETOPT_TX_POWER, NETOPT_TX_POWER
  | NETOPT_NID, NETOPT_NID
  | NETOPT_ADDRESS_LONG, NETOPT_ADDRESS_LONG
  | NETOPT_ADDRESS, NETOPT_ADDRESS
  | NETOPT_PROMISCUOUSMODE, NETOPT_PROMISCUOUSMODE
  | NETOPT_STATE, NETOPT_STATE => true
  | _, _ => false
  end.

(** [netopt_state_t], as the integers the driver writes into the caller's
    variable; only their being distinct matters. *)
Definition NETOPT_STATE_OFF : Z := 0.
Definition NETOPT_STATE_SLEEP : Z := 1.
Definition NETOPT_STATE_IDLE : Z := 2.
Definition NETOPT_STATE_RX : Z := 3.
Definition NETOPT_STATE_TX : Z := 4.

(** [netopt_enable_t] *)
Definition NETOPT_DISABLE : Z := 0.
Definition NETOPT_ENABLE : Z := 1.

Definition IEEE802154_LONG_ADDRESS_LEN : nat := 8.

Definition sizeof_uint16_t : Z := 2.
Definition sizeof_int16_t : Z := 2.
Definition sizeof_uint64_t : Z := 8.
Definition sizeof_enum : Z := 4.

(** The events a netdev2 driver raises. *)
Inductive netdev2_event_t :=
| NETDEV2_EVENT_ISR
| NETDEV2_EVENT_RX_STARTED
| NETDEV2_EVENT_RX_COMPLETE
| NETDEV2_EVENT_TX_STARTED
| NETDEV2_EVENT_TX_COMPLETE
| NETDEV2_EVENT_TX_COMPLETE_DATA_PENDING
| NETDEV2_EVENT_TX_NOACK
| NETDEV2_EVENT_TX_MEDIUM_BUSY
| NETDEV2_EVENT_LINK_UP
| NETDEV2_EVENT_LINK_DOWN.

(** The [ThreadError] codes the file returns or reports. *)
Inductive ThreadError :=
| kThreadError_None
| kThreadError_Busy
| kThreadError_Abort
| kThreadError_NoAck
| kThreadError_ChannelAccessFailure.

(** The buffer a property is read into or written from: a scalar variable of
    the caller, or an array of octets. *)
Inductive optval :=
| Scalar (v : Z)
| Octets (l : list Byte.byte).

Definition as_scalar (v : optval) : Z :=
  match v with Scalar z => z | Octets _ => 0 end.

Definition as_octets (v : optval) : list Byte.byte :=
  match v with Scalar _ => [] | Octets l => l end.

(** [struct iovec]: the base pointer is represented by the bytes it points to. *)
Record iovec := mk_iovec { iov_base : list Byte.byte; iov_len : Z }.

(** [RadioPacket]: the frame buffer with its length, channel and power. *)
Record RadioPacket := mk_RadioPacket {
  mPsdu : list Byte.byte;
  mLength : Z;
  mChannel : Z;
  mPower : Z
}.

(** The conversions an assignment to a [RadioPacket] field performs.  They
    follow from the field types, which OpenThread's radio header fixes; the
    development is parametric in them. *)
Record RadioPacket_fields := mk_fields {
  conv_mLength : Z -> Z;
  conv_mChannel : Z -> Z;
  conv_mPower : Z -> Z
}.

(** The field types of OpenThread's header: the length and the channel are
    [uint8_t], the power is [int8_t]. *)
Definition openthread_fields : RadioPacket_fields :=
  mk_fields to_uint8 to_uint8 to_int8.

(** The two frames a packet pointer handed to OpenThread can refer to. *)
Inductive packet_ptr :=
| NULL
| addr_sTransmitFrame
| addr_sReceiveFrame.

(** The buffer argument of the driver's [recv]. *)
Inductive recv_buf :=
| recv_NULL
| recv_sReceiveFrame_mPsdu.

(** *** The driver interface

    [dev->driver->get/set/send/recv] act on a device of some type [D].  [get]
    gives the result code and what it left in the caller's buffer, [recv]
    gives the result code and the octets it wrote (none for a [NULL]
    buffer). *)
Class netdev2_driver (D : Type) := {
  drv_get : netopt_t -> Z -> D -> (Z * optval) * D;
  drv_set : netopt_t -> optval -> Z -> D -> Z * D;
  drv_send : list iovec -> D -> Z * D;
  drv_recv : recv_buf -> Z -> D -> (Z * list Byte.byte) * D
}.

(** Everything that leaves the file: the four driver entry points with their
    arguments and results, and the two upcalls into OpenThread. *)
Inductive call :=
| driver_get (opt : netopt_t) (max_len : Z) (res : Z) (value : optval)
| driver_set (opt : netopt_t) (value : optval) (len : Z) (res : Z)
| driver_send (vector : list iovec) (res : Z)
| driver_recv (buf : recv_buf) (len : Z) (res : Z)
| otPlatRadioReceiveDone (aPacket : packet_ptr) (aError : ThreadError)
| otPlatRadioTransmitDone (aPacket : packet_ptr) (aFramePending : bool)
    (aError : ThreadError).

(** How a call of the C function ends: it returns, or [assert] stops the
    program. *)
Inductive outcome (A : Type) :=
| Returned (a : A)
| AssertFailed.
Arguments Returned {A} a.
Arguments AssertFailed {A}.

(** *** A device that stores what it is given

    Every property holds the last value set and [get] echoes it; [send]
    records the frame; [recv] reports the length [rx_len] for a [NULL] buffer
    and otherwise hands out the frame waiting in [rx_frame]. *)
Record mock_dev := mk_mock {
  opts : netopt_t -> optval;
  rx_len : Z;
  rx_frame : list Byte.byte;
  sent : list (list iovec)
}.

Definition mock_get (opt : netopt_t) (max_len : Z) (d : mock_dev)
  : (Z * optval) * mock_dev :=
  ((max_len, opts d opt), d).

Definition mock_set (opt : netopt_t) (v : optval) (len : Z) (d : mock_dev)
  : Z * mock_dev :=
  (len, mk_mock (fun o => if netopt_eqb o opt then v else opts d o)
                (rx_len d) (rx_frame d) (sent d)).

Definition mock_send (vector : list iovec) (d : mock_dev) : Z * mock_dev :=
  (fold_right (fun v n => iov_len v + n) 0 vector,
   mk_mock (opts d) (rx_len d) (rx_frame d) (sent d ++ [vector])).

Definition mock_recv (buf : recv_buf) (len : Z) (d : mock_dev)
  : (Z * list Byte.byte) * mock_dev :=
  match buf with
  | recv_NULL => ((rx_len d, []), d)
  | recv_sReceiveFrame_mPsdu =>
      ((Z.of_nat (length (rx_frame d)), rx_frame d),
       mk_mock (opts d) 0 [] (sent d))
  end.

#[export] Instance mock_driver : netdev2_driver mock_dev := {
  drv_get := mock_get;
  drv_set := mock_set;
  drv_send := mock_send;
  drv_recv := mock_recv
}.

(** A mock device whose radio reports [state], every other property zero. *)
Definition mock_in_state (state : Z) : mock_dev :=
  mk_mock (fun o => if netopt_eqb o NETOPT_STATE then Scalar state else Scalar 0)
          0 [] [].

(** *** The file's globals and its operations *)

Section Radio.

Context {D : Type} {drv : netdev2_driver D}.

(** Whether [assert] is compiled out. *)
Variable NDEBUG : bool.

Variable fields : RadioPacket_fields.

(** The statics of platform_radio.c and the transcript of the calls made
    so far, oldest first. *)
Record radio_t := mk_radio {
  _dev : D;
  sTransmitFrame : RadioPacket;
  sReceiveFrame : RadioPacket;
  sRadioCaps : Z;
  calls : list call
}.

Definition set_dev (d : D) (w : radio_t) : radio_t :=
  mk_radio d (sTransmitFrame w) (sReceiveFrame w) (sRadioCaps w) (calls w).
Definition set_sTransmitFrame (f : RadioPacket) (w : radio_t) : radio_t :=
  mk_radio (_dev w) f (sReceiveFrame w) (sRadioCaps w) (calls w).
Definition set_sReceiveFrame (f : RadioPacket) (w : radio_t) : radio_t :=
  mk_radio (_dev w) (sTransmitFrame w) f (sRadioCaps w) (calls w).
Definition set_sRadioCaps (c : Z) (w : radio_t) : radio_t :=
  mk_radio (_dev w) (sTransmitFrame w) (sReceiveFrame w) c (calls w).
Definition record (c : call) (w : radio_t) : radio_t :=
  mk_radio (_dev w) (sTransmitFrame w) (sReceiveFrame w) (sRadioCaps w)
           (calls w ++ [c]).

Definition with_mLength (n : Z) (f : RadioPacket) : RadioPacket :=
  mk_RadioPacket (mPsdu f) (conv_mLength fields n) (mChannel f) (mPower f).
Definition with_mChannel (n : Z) (f : RadioPacket) : RadioPacket :=
  mk_RadioPacket (mPsdu f) (mLength f) (conv_mChannel fields n) (mPower f).
Definition with_mPower (n : Z) (f : RadioPacket) : RadioPacket :=
  mk_RadioPacket (mPsdu f) (mLength f) (mChannel f) (conv_mPower fields n).
Definition with_mPsdu (b : list Byte.byte) (f : RadioPacket) : RadioPacket :=
  mk_RadioPacket b (mLength f) (mChannel f) (mPower f).

(** Octets written from the start of a buffer; the rest of it stays. *)
Definition written (data old : list Byte.byte) : list Byte.byte :=
  data ++ skipn (length data) old.

(** The state monad the operations live in. *)
Definition M (A : Type) : Type := radio_t -> A * radio_t.

Definition ret {A} (a : A) : M A := fun w => (a, w).
Definition bind {A B} (c : M A) (k : A -> M B) : M B :=
  fun w => let (a, w') := c w in k a w'.

Notation "x <- c ;; k" := (bind c (fun x => k))
  (at level 61, c at next level, right associativity).
Notation "c ;; k" := (bind c (fun _ => k))
  (at level 61, right associativity).

(** C's short-circuit [||]. *)
Definition orM (a b : M bool) : M bool :=
  x <- a ;; if x then ret true else b.

Definition modify (f : radio_t -> radio_t) : M unit := fun w => (tt, f w).
Definition read {A} (f : radio_t -> A) : M A := fun w => (f w, w).

(** The four entry points of [_dev->driver], each leaving its trace. *)
Definition call_get (opt : netopt_t) (max_len : Z) : M (Z * optval) :=
  fun w =>
    let '((res, v), d) := drv_get opt max_len (_dev w) in
    ((to_int res, v), record (driver_get opt max_len (to_int res) v) (set_dev d w)).

Definition call_set (opt : netopt_t) (v : optval) (len : Z) : M Z :=
  fun w =>
    let '(res, d) := drv_set opt v len (_dev w) in
    (to_int res, record (driver_set opt v len (to_int res)) (set_dev d w)).

Definition call_send (vector : list iovec) : M Z :=
  fun w =>
    let '(res, d) := drv_send vector (_dev w) in
    (to_int res, record (driver_send vector (to_int res)) (set_dev d w)).

Definition call_recv (buf : recv_buf) (len : Z) : M Z :=
  fun w =>
    let '((res, data), d) := drv_recv buf len (_dev w) in
    let w := set_dev d w in
    let w :=
      match buf with
      | recv_NULL => w
      | recv_sReceiveFrame_mPsdu =>
          set_sReceiveFrame
            (with_mPsdu (written data (mPsdu (sReceiveFrame w))) (sReceiveFrame w)) w
      end in
    (to_int res, record (driver_recv buf len (to_int res)) w).

(** The upcalls into OpenThread. *)
Definition upcall (c : call) : M unit := modify (record c).

(** **** Property accessors *)


Definition set_channel (channel : Z) : M Z :=
  call_set NETOPT_CHANNEL (Scalar (to_uint16 channel)) sizeof_uint16_t.

Definition get_power : M Z :=
  r <- call_get NETOPT_TX_POWER sizeof_int16_t ;;
  ret (to_int16 (as_scalar (snd r))).

Definition set_power (power : Z) : M Z :=
  call_set NETOPT_TX_POWER (Scalar (to_int16 power)) sizeof_int16_t.

Definition set_panid (panid : Z) : M Z :=
  call_set NETOPT_NID (Scalar (to_uint16 panid)) sizeof_uint16_t.

(** The second component is the caller's array after the call. *)
Definition get_long_addr : M (Z * list Byte.byte) :=
  r <- call_get NETOPT_ADDRESS_LONG sizeof_uint64_t ;;
  ret (to_uint64 (fst r), as_octets (snd r)).

Definition set_long_addr (ext_addr : list Byte.byte) : M Z :=
  call_set NETOPT_ADDRESS_LONG (Octets ext_addr) sizeof_uint64_t.

Definition get_addr (addr : Z) : M Z :=
  r <- call_get NETOPT_ADDRESS sizeof_uint16_t ;;
  ret (to_uint16 (fst r)).

Definition set_addr (addr : Z) : M Z :=
  call_set NETOPT_ADDRESS (Scalar (to_uint16 addr)) sizeof_uint16_t.

Definition is_promiscuous : M bool :=
  r <- call_get NETOPT_PROMISCUOUSMODE sizeof_enum ;;
  ret (to_int (as_scalar (snd r)) =? NETOPT_ENABLE).

Definition set_promiscuous (enable : Z) : M Z :=
  call_set NETOPT_PROMISCUOUSMODE (Scalar (to_int enable)) sizeof_enum.

Definition get_state : M Z :=
  r <- call_get NETOPT_STATE sizeof_enum ;;
  ret (to_int (as_scalar (snd r))).

Definition set_state (state : Z) : M unit :=
  call_set NETOPT_STATE (Scalar state) sizeof_enum ;; ret tt.

Definition ot_disable : M unit := set_state NETOPT_STATE_OFF.
Definition ot_sleep : M unit := set_state NETOPT_STATE_SLEEP.
Definition ot_receive : M unit := set_state NETOPT_STATE_IDLE.

Definition is_sleep : M bool :=
  s <- get_state ;; ret (s =? NETOPT_STATE_SLEEP).

Definition is_receive : M bool :=
  orM (s <- get_state ;; ret (s =? NETOPT_STATE_IDLE))
      (s <- get_state ;; ret (s =? NETOPT_STATE_RX)).

Definition is_transmit : M bool :=
  s <- get_state ;; ret (s =? NETOPT_STATE_TX).

Definition is_busy : M bool :=
  orM (s <- get_state ;; ret (s =? NETOPT_STATE_TX))
      (s <- get_state ;; ret (s =? NETOPT_STATE_RX)).

(** Modelled from the spec: [is_rx] and [is_tx] are what [otPlatRadioTransmit]
    tests, and platform_radio.c calls them without defining them.  They
    answer whether the device is currently receiving, respectively
    transmitting, read from the device like the tests beside them. *)
Definition is_rx : M bool :=
  s <- get_state ;; ret (s =? NETOPT_STATE_RX).
Definition is_tx : M bool :=
  s <- get_state ;; ret (s =? NETOPT_STATE_TX).

(** **** Initialisation *)

(** Capability bits of OpenThread's radio header. *)
Definition kRadioCapsAckTimeout : Z := 1.
Definition kRadioCapsTransmitRetries : Z := 4.
Definition kRadioCapsCsmaBackOff : Z := 8.

(** [openthread_radio_init(dev, tb, rb)], run on the zero-initialised statics:
    [tb] and [rb] are the caller's transmit and receive buffers. *)
Definition openthread_radio_init (dev : D) (tb rb : list Byte.byte) : radio_t :=
  let zero := mk_RadioPacket [] 0 0 0 in
  mk_radio dev
    (with_mLength 0 (with_mPsdu tb zero))
    (with_mLength 0 (with_mPsdu rb zero))
    (Z.lor (Z.lor (Z.lor kRadioCapsTransmitRetries kRadioCapsCsmaBackOff)
                  kRadioCapsTransmitRetries) kRadioCapsAckTimeout)
    [].

(** **** Driver events *)

(** [recv_pkt], called upon NETDEV2_EVENT_RX_COMPLETE with the device the
    adapter was initialised with.  The length test compares an [int] with an
    [unsigned], so it is made on the [unsigned] conversion of [len]. *)
Definition recv_pkt : M unit :=
  len <- call_recv recv_NULL 0 ;;
  if to_uint32 len >? to_uint32 UINT16_MAX then
    upcall (otPlatRadioReceiveDone NULL kThreadError_Abort)
  else
    modify (fun w => set_sReceiveFrame (with_mLength len (sReceiveFrame w)) w) ;;
    power <- get_power ;;
    modify (fun w => set_sReceiveFrame (with_mPower power (sReceiveFrame w)) w) ;;
    res <- call_recv recv_sReceiveFrame_mPsdu (to_uint32 len) ;;
    upcall (otPlatRadioReceiveDone
              (if res >? 0 then addr_sReceiveFrame else NULL)
              (if res >? 0 then kThreadError_None else kThreadError_Abort)).

(** [sent_pkt], called upon a TX event. *)
Definition sent_pkt (event : netdev2_event_t) : M unit :=
  match event with
  | NETDEV2_EVENT_TX_COMPLETE =>
      upcall (otPlatRadioTransmitDone addr_sTransmitFrame false kThreadError_None)
  | NETDEV2_EVENT_TX_COMPLETE_DATA_PENDING =>
      upcall (otPlatRadioTransmitDone addr_sTransmitFrame true kThreadError_None)
  | NETDEV2_EVENT_TX_NOACK =>
      upcall (otPlatRadioTransmitDone addr_sTransmitFrame false kThreadError_NoAck)
  | NETDEV2_EVENT_TX_MEDIUM_BUSY =>
      upcall (otPlatRadioTransmitDone addr_sTransmitFrame false
                kThreadError_ChannelAccessFailure)
  | _ => ret tt
  end.

(** **** The platform interface OpenThread calls *)

(** The result is the caller's array [aIeeeEui64] after the call. *)
Definition otPlatRadioGetIeeeEui64 : M (list Byte.byte) :=
  r <- get_long_addr ;; ret (snd r).

Definition otPlatRadioSetPanId (aPanId : Z) : M unit :=
  set_panid (Z.lor (Z.shiftl (Z.land aPanId 0xff) 8)
                   (Z.land (Z.shiftr aPanId 8) 0xff)) ;;
  ret tt.

(** The loop that fills [reversed_addr]: entry [i] is entry
    [IEEE802154_LONG_ADDRESS_LEN - 1 - i] of the argument. *)
Definition reversed_addr (aExtendedAddress : list Byte.byte) : list Byte.byte :=
  map (fun i => nth (IEEE802154_LONG_ADDRESS_LEN - 1 - i) aExtendedAddress Byte.x00)
      (seq 0 IEEE802154_LONG_ADDRESS_LEN).

Definition otPlatRadioSetExtendedAddress (aExtendedAddress : list Byte.byte)
  : M unit :=
  set_long_addr (reversed_addr aExtendedAddress) ;; ret tt.

Definition otPlatRadioSetShortAddress (aShortAddress : Z) : M unit :=
  set_addr (Z.lor (Z.shiftl (Z.land aShortAddress 0xff) 8)
                  (Z.land (Z.shiftr aShortAddress 8) 0xff)) ;;
  ret tt.

Definition otPlatRadioEnable : M ThreadError :=
  busy <- is_busy ;;
  if busy then ret kThreadError_None
  else set_state NETOPT_STATE_SLEEP ;; ret kThreadError_None.

Definition otPlatRadioDisable : M ThreadError :=
  busy <- is_busy ;;
  if busy then ret kThreadError_Busy
  else set_state NETOPT_STATE_OFF ;; ret kThreadError_None.

Definition otPlatRadioIsEnabled : M bool :=
  s <- get_state ;; ret (negb (s =? NETOPT_STATE_OFF)).

Definition otPlatRadioSleep : M ThreadError :=
  busy <- is_busy ;;
  if busy then ret kThreadError_Busy
  else set_state NETOPT_STATE_SLEEP ;; otPlatRadioDisable.

Definition otPlatRadioReceive (aChannel : Z) : M ThreadError :=
  busy <- is_busy ;;
  if busy then ret kThreadError_Busy
  else
    set_channel aChannel ;;
    modify (fun w => set_sReceiveFrame (with_mChannel aChannel (sReceiveFrame w)) w) ;;
    set_state NETOPT_STATE_IDLE ;;
    ret kThreadError_None.

Definition otPlatRadioGetTransmitBuffer : M packet_ptr :=
  ret addr_sTransmitFrame.

(** The packet argument is not used: the frame sent is [sTransmitFrame]. *)
Definition otPlatRadioTransmit (aPacket : packet_ptr)
  : M (outcome ThreadError) :=
  busy <- orM is_rx is_tx ;;
  if busy then
    ret (if NDEBUG then Returned kThreadError_Busy else AssertFailed)
  else
    frame <- read sTransmitFrame ;;
    let pkt := mk_iovec (mPsdu frame) (mLength frame) in
    set_channel (mChannel frame) ;;
    set_power (mPower frame) ;;
    call_send [pkt] ;;
    ret (Returned kThreadError_None).

Definition otPlatRadioGetCaps : M Z := read sRadioCaps.

Definition otPlatRadioSetDefaultTxPower (aPower : Z) : M unit :=
  set_power aPower ;; ret tt.

Definition otPlatRadioGetPromiscuous : M bool := is_promiscuous.

Definition otPlatRadioSetPromiscuous (aEnable : bool) : M unit :=
  set_promiscuous (if aEnable then NETOPT_ENABLE else NETOPT_DISABLE) ;; ret tt.

(** **** Vocabulary of the statements *)

(** What the device reports for its state when asked. *)
Definition device_state (d : D) : Z :=
  to_int (as_scalar (snd (fst (drv_get NETOPT_STATE sizeof_enum d)))).

(** The device is in the middle of a transmission or of a reception. *)
Definition device_busy (d : D) : bool :=
  (device_state d =? NETOPT_STATE_TX) || (device_state d =? NETOPT_STATE_RX).

(** A call that only asks the device for its state. *)
Definition is_state_query (c : call) : bool :=
  match c with
  | driver_get NETOPT_STATE _ _ _ => true
  | _ => false
  end.

(** The 16-bit value whose low and high octets are exchanged. *)
Definition byte_swapped (x : Z) : Z := (x mod 256) * 256 + x / 256.

(** The world after the calls [cs] were added to the transcript and nothing
    else changed. *)
Definition logged (cs : list call) (w : radio_t) : radio_t :=
  mk_radio (_dev w) (sTransmitFrame w) (sReceiveFrame w) (sRadioCaps w)
           (calls w ++ cs).

(** **** The operations that are accepted and do nothing *)

Definition otPlatRadioEnableSrcMatch (aEnable : bool) : M unit := ret tt.

Definition otPlatRadioAddSrcMatchShortEntry (aShortAddress : Z) : M ThreadError :=
  ret kThreadError_None.

Definition otPlatRadioAddSrcMatchExtEntry (aExtAddress : list Byte.byte)
  : M ThreadError :=
  ret kThreadError_None.

Definition otPlatRadioClearSrcMatchShortEntry (aShortAddress : Z) : M ThreadError :=
  ret kThreadError_None.

Definition otPlatRadioClearSrcMatchExtEntry (aExtAddress : list Byte.byte)
  : M ThreadError :=
  ret kThreadError_None.

Definition otPlatRadioClearSrcMatchShortEntries : M unit := ret tt.

Definition otPlatRadioClearSrcMatchExtEntries : M unit := ret tt.

Definition otPlatRadioGetNoiseFloor : M Z := ret 0.

Definition otPlatRadioGetRssi : M Z := ret 0.

Definition otPlatRadioEnergyScan (aScanChannel aScanDuration : Z) : M ThreadError :=
  ret kThreadError_None.

(** **** Runs of the adapter

    The ways into the file: the platform functions OpenThread calls and the
    two handlers the driver events reach.  A run goes on after an entry whose
    assertion failed; the program stops there, so what it can do is a prefix
    of such a run. *)
Inductive entry :=
| api_Enable
| api_Disable
| api_IsEnabled
| api_Sleep
| api_Receive (aChannel : Z)
| api_Transmit (aPacket : packet_ptr)
| api_GetTransmitBuffer
| api_GetIeeeEui64
| api_SetPanId (aPanId : Z)
| api_SetExtendedAddress (aExtendedAddress : list Byte.byte)
| api_SetShortAddress (aShortAddress : Z)
| api_SetDefaultTxPower (aPower : Z)
| api_GetPromiscuous
| api_SetPromiscuous (aEnable : bool)
| api_GetCaps
| api_GetRssi
| api_GetNoiseFloor
| api_EnergyScan (aScanChannel aScanDuration : Z)
| api_EnableSrcMatch (aEnable : bool)
| api_AddSrcMatchShortEntry (aShortAddress : Z)
| api_AddSrcMatchExtEntry (aExtAddress : list Byte.byte)
| api_ClearSrcMatchShortEntry (aShortAddress : Z)
| api_ClearSrcMatchExtEntry (aExtAddress : list Byte.byte)
| api_ClearSrcMatchShortEntries
| api_ClearSrcMatchExtEntries
| event_recv_pkt
| event_sent_pkt (event : netdev2_event_t).

(** A computation run for its effect. *)
Definition forget {A} (c : M A) : M unit := c ;; ret tt.

Definition run_entry (e : entry) : M unit :=
  match e with
  | api_Enable => forget otPlatRadioEnable
  | api_Disable => forget otPlatRadioDisable
  | api_IsEnabled => forget otPlatRadioIsEnabled
  | api_Sleep => forget otPlatRadioSleep
  | api_Receive aChannel => forget (otPlatRadioReceive aChannel)
  | api_Transmit aPacket => forget (otPlatRadioTransmit aPacket)
  | api_GetTransmitBuffer => forget otPlatRadioGetTransmitBuffer
  | api_GetIeeeEui64 => forget otPlatRadioGetIeeeEui64
  | api_SetPanId aPanId => otPlatRadioSetPanId aPanId
  | api_SetExtendedAddress a => otPlatRadioSetExtendedAddress a
  | api_SetShortAddress a => otPlatRadioSetShortAddress a
  | api_SetDefaultTxPower aPower => otPlatRadioSetDefaultTxPower aPower
  | api_GetPromiscuous => forget otPlatRadioGetPromiscuous
  | api_SetPromiscuous aEnable => otPlatRadioSetPromiscuous aEnable
  | api_GetCaps => forget otPlatRadioGetCaps
  | api_GetRssi => forget otPlatRadioGetRssi
  | api_GetNoiseFloor => forget otPlatRadioGetNoiseFloor
  | api_EnergyScan c d => forget (otPlatRadioEnergyScan c d)
  | api_EnableSrcMatch b => otPlatRadioEnableSrcMatch b
  | api_AddSrcMatchShortEntry a => forget (otPlatRadioAddSrcMatchShortEntry a)
  | api_AddSrcMatchExtEntry a => forget (otPlatRadioAddSrcMatchExtEntry a)
  | api_ClearSrcMatchShortEntry a => forget (otPlatRadioClearSrcMatchShortEntry a)
  | api_ClearSrcMatchExtEntry a => forget (otPlatRadioClearSrcMatchExtEntry a)
  | api_ClearSrcMatchShortEntries => otPlatRadioClearSrcMatchShortEntries
  | api_ClearSrcMatchExtEntries => otPlatRadioClearSrcMatchExtEntries
  | event_recv_pkt => recv_pkt
  | event_sent_pkt event => sent_pkt event
  end.

Fixpoint run_entries (es : list entry) : M unit :=
  match es with
  | [] => ret tt
  | e :: es => run_entry e ;; run_entries es
  end.

Definition is_transmit_entry (e : entry) : bool :=
  match e with api_Transmit _ => true | _ => false end.

Definition is_event_entry (e : entry) : bool :=
  match e with event_recv_pkt | event_sent_pkt _ => true | _ => false end.

(** Kinds of calls in the transcript. *)
Definition is_send (c : call) : bool :=
  match c with driver_send _ _ => true | _ => false end.

Definition is_recv (c : call) : bool :=
  match c with driver_recv _ _ _ => true | _ => false end.

Definition is_upcall (c : call) : bool :=
  match c with
  | otPlatRadioReceiveDone _ _ | otPlatRadioTransmitDone _ _ _ => true
  | _ => false
  end.

(** A call that does not put the device into a state other than off, sleep
    or idle. *)
Definition keeps_to_rest_states (c : call) : bool :=
  match c with
  | driver_set opt value _ _ =>
      match opt with
      | NETOPT_STATE =>
          match value with
          | Scalar v =>
              (v =? NETOPT_STATE_OFF) || (v =? NETOPT_STATE_SLEEP)
              || (v =? NETOPT_STATE_IDLE)
          | Octets _ => false
          end
      | _ => true
      end
  | _ => true
  end.

(** A computation whose every call satisfies [P] and which writes neither the
    outbound frame nor the capabilities. *)
Definition footprint (P : call -> bool) {A} (c : M A) : Prop :=
  forall w,
    exists cs,
      calls (snd (c w)) = calls w ++ cs
      /\ forallb P cs = true
      /\ sTransmitFrame (snd (c w)) = sTransmitFrame w
      /\ sRadioCaps (snd (c w)) = sRadioCaps w.

End Radio.

Arguments radio_t D : clear implicits.

(** *** Concrete worlds on the storing device *)

(** The adapter right after initialisation on a storing device that reports
    [state], with empty 4-octet buffers. *)
Definition mock_world (state : Z) : radio_t mock_dev :=
  openthread_radio_init openthread_fields (mock_in_state state)
    [Byte.x00; Byte.x00; Byte.x00; Byte.x00]
    [Byte.x00; Byte.x00; Byte.x00; Byte.x00].

(** The same world once the device announces a frame of [len] octets and
    holds [frame]. *)
Definition mock_world_rx (len : Z) (frame : list Byte.byte) : radio_t mock_dev :=
  set_dev (mk_mock (opts (mock_in_state NETOPT_STATE_IDLE)) len frame [])
          (mock_world NETOPT_STATE_IDLE).

Definition sample_frame : list Byte.byte := [Byte.x2a; Byte.x2b; Byte.x2c].

Definition sample_addr : list Byte.byte :=
  [Byte.x01; Byte.x02; Byte.x03; Byte.x04; Byte.x05; Byte.x06; Byte.x07; Byte.x08].

Section RadioProofs.

Context {D : Type} {drv : netdev2_driver D}.
Variable NDEBUG : bool.
Variable fields : RadioPacket_fields.

(** *** Properties that hold for every driver *)

Lemma byte_swapped_bits (x : Z) :
  0 <= x < 2 ^ 16 ->
  to_uint16 (Z.lor (Z.shiftl (Z.land x 0xff) 8) (Z.land (Z.shiftr x 8) 0xff))
  = byte_swapped x.
Proof.
  intros Hx. unfold to_uint16, byte_swapped.
  change 0xff with (Z.ones 8).
  rewrite !Z.land_ones, Z.shiftl_mul_pow2, Z.shiftr_div_pow2 by lia.
  change (2 ^ 8) with 256.
  assert (Hhi : 0 <= x / 256 < 256)
    by (split; [apply Z.div_pos | apply Z.div_lt_upper_bound]; lia).
  assert (Hlo : 0 <= x mod 256 < 256) by (apply Z.mod_pos_bound; lia).
  rewrite (Z.mod_small (x / 256)) by lia.
  assert (Hdisj : Z.land (x mod 256 * 256) (x / 256) = 0).
  { apply Z.bits_inj'. intros n Hn.
    rewrite Z.land_spec, Z.bits_0.
    destruct (Z.lt_ge_cases n 8) as [Hlt | Hge].
    - change 256 with (2 ^ 8). rewrite Z.mul_pow2_bits_low by lia. reflexivity.
    - rewrite (Z.bits_above_log2 (x / 256) n), andb_false_r; [reflexivity | lia |].
      destruct (Z.eq_dec (x / 256) 0) as [E | E]; [rewrite E; simpl; lia |].
      apply Z.log2_lt_pow2; [lia |].
      apply Z.lt_le_trans with (2 ^ 8); [simpl; lia | apply Z.pow_le_mono_r; lia]. }
  rewrite <- Z.lxor_lor, <- Z.add_nocarry_lxor by exact Hdisj.
  apply Z.mod_small. lia.
Qed.

Lemma byte_swapped_octets (x : Z) :
  0 <= x < 2 ^ 16 ->
  byte_swapped x mod 256 = x / 256 /\ byte_swapped x / 256 = x mod 256.
Proof.
  intros Hx. unfold byte_swapped.
  assert (Hhi : 0 <= x / 256 < 256)
    by (split; [apply Z.div_pos | apply Z.div_lt_upper_bound]; lia).
  assert (Hlo : 0 <= x mod 256 < 256) by (apply Z.mod_pos_bound; lia).
  split.
  - rewrite Z.add_comm, Z.mod_add by lia. apply Z.mod_small; lia.
  - rewrite Z.add_comm, Z.div_add by lia. rewrite Z.div_small; lia.
Qed.

Lemma reversed_addr_rev (a : list Byte.byte) :
  length a = IEEE802154_LONG_ADDRESS_LEN -> reversed_addr a = rev a.
Proof.
  intros H.
  do 9 (destruct a as [| ? a]; try discriminate H).
  reflexivity.
Qed.

Lemma call_set_logged (opt : netopt_t) (v : optval) (len : Z) (w : radio_t D) :
  exists res,
    call_set opt v len w
    = (res, logged [driver_set opt v len res]
                   (set_dev (snd (drv_set opt v len (_dev w))) w)).
Proof.
  unfold call_set. destruct (drv_set opt v len (_dev w)) as [res d].
  exists (to_int res). reflexivity.
Qed.

(** C2.  Each of the four transmit-completion events makes [sent_pkt] hand
    OpenThread the outbound frame with exactly one report: TX_COMPLETE gives
    (None, no frame pending), TX_COMPLETE_DATA_PENDING gives (None, frame
    pending), TX_NOACK gives (NoAck, no frame pending) and TX_MEDIUM_BUSY gives
    (ChannelAccessFailure, no frame pending); nothing else changes. *)
Theorem sent_pkt_reports (w : radio_t D) :
  sent_pkt NETDEV2_EVENT_TX_COMPLETE w
  = (tt, logged [otPlatRadioTransmitDone addr_sTransmitFrame false
                   kThreadError_None] w)
  /\ sent_pkt NETDEV2_EVENT_TX_COMPLETE_DATA_PENDING w
     = (tt, logged [otPlatRadioTransmitDone addr_sTransmitFrame true
                      kThreadError_None] w)
  /\ sent_pkt NETDEV2_EVENT_TX_NOACK w
     = (tt, logged [otPlatRadioTransmitDone addr_sTransmitFrame false
                      kThreadError_NoAck] w)
  /\ sent_pkt NETDEV2_EVENT_TX_MEDIUM_BUSY w
     = (tt, logged [otPlatRadioTransmitDone addr_sTransmitFrame false
                      kThreadError_ChannelAccessFailure] w).
Proof. repeat split. Qed.

(** C9.  For a 16-bit PAN id [p] and a 16-bit short address [a], the one call
    [otPlatRadioSetPanId] makes is a [set] of NETOPT_NID with [p] byte-swapped,
    and the one call [otPlatRadioSetShortAddress] makes is a [set] of
    NETOPT_ADDRESS with [a] byte-swapped, where byte-swapping exchanges the
    low and the high octet. *)
Theorem set_panid_short_addr_swapped (p a : Z) (w : radio_t D) :
  0 <= p < 2 ^ 16 ->
  0 <= a < 2 ^ 16 ->
  (exists res,
     calls (snd (otPlatRadioSetPanId p w))
     = calls w ++ [driver_set NETOPT_NID (Scalar (byte_swapped p))
                     sizeof_uint16_t res])
  /\ (exists res,
        calls (snd (otPlatRadioSetShortAddress a w))
        = calls w ++ [driver_set NETOPT_ADDRESS (Scalar (byte_swapped a))
                        sizeof_uint16_t res])
  /\ (byte_swapped p mod 256 = p / 256 /\ byte_swapped p / 256 = p mod 256)
  /\ (byte_swapped a mod 256 = a / 256 /\ byte_swapped a / 256 = a mod 256).
Proof.
  intros Hp Ha. repeat apply conj; try (apply byte_swapped_octets; assumption).
  - unfold otPlatRadioSetPanId, set_panid, bind, ret.
    rewrite byte_swapped_bits by assumption.
    destruct (call_set_logged NETOPT_NID (Scalar (byte_swapped p))
                sizeof_uint16_t w) as [res ->].
    exists res. reflexivity.
  - unfold otPlatRadioSetShortAddress, set_addr, bind, ret.
    rewrite byte_swapped_bits by assumption.
    destruct (call_set_logged NETOPT_ADDRESS (Scalar (byte_swapped a))
                sizeof_uint16_t w) as [res ->].
    exists res. reflexivity.
Qed.

Lemma to_int_range (z : Z) : - 2 ^ 31 <= to_int z < 2 ^ 31.
Proof.
  unfold to_int.
  pose proof (Z.mod_pos_bound (z + 2 ^ 31) (2 ^ 32) ltac:(lia)). lia.
Qed.

Lemma to_uint32_small (z : Z) : 0 <= z < 2 ^ 32 -> to_uint32 z = z.
Proof. intros H. unfold to_uint32. apply Z.mod_small. exact H. Qed.

Lemma call_recv_NULL (n : Z) (w : radio_t D) :
  call_recv recv_NULL n w
  = (to_int (fst (fst (drv_recv recv_NULL n (_dev w)))),
     logged [driver_recv recv_NULL n
               (to_int (fst (fst (drv_recv recv_NULL n (_dev w)))))]
            (set_dev (snd (drv_recv recv_NULL n (_dev w))) w)).
Proof.
  unfold call_recv.
  destruct (drv_recv recv_NULL n (_dev w)) as [[res data] d]. reflexivity.
Qed.

(** C3.  Let [len] be the frame length the driver reports to [recv_pkt].
    If [len] exceeds UINT16_MAX, the only calls are the length query and an
    upcall reporting Abort with no frame, and the inbound frame (buffer,
    length, power) is untouched.  If [len] is between 0 and UINT16_MAX, the
    handler stores the length, asks for the power and stores it, reads [len]
    octets into the buffer, and reports the inbound frame with success when
    the read result is positive and no frame with Abort otherwise. *)
Theorem recv_pkt_length_check (w : radio_t D) :
  let len := to_int (fst (fst (drv_recv recv_NULL 0 (_dev w)))) in
  let w' := snd (recv_pkt fields w) in
  (UINT16_MAX < len ->
     calls w' = calls w ++ [driver_recv recv_NULL 0 len;
                            otPlatRadioReceiveDone NULL kThreadError_Abort]
     /\ sReceiveFrame w' = sReceiveFrame w)
  /\ (0 <= len <= UINT16_MAX ->
      exists pres pval res data pkt err,
        calls w' = calls w ++ [driver_recv recv_NULL 0 len;
                               driver_get NETOPT_TX_POWER sizeof_int16_t pres pval;
                               driver_recv recv_sReceiveFrame_mPsdu len res;
                               otPlatRadioReceiveDone pkt err]
        /\ (0 < res -> pkt = addr_sReceiveFrame /\ err = kThreadError_None)
        /\ (res <= 0 -> pkt = NULL /\ err = kThreadError_Abort)
        /\ mLength (sReceiveFrame w') = conv_mLength fields len
        /\ mPower (sReceiveFrame w') = conv_mPower fields (to_int16 (as_scalar pval))
        /\ mPsdu (sReceiveFrame w') = written data (mPsdu (sReceiveFrame w))).
Proof.
  cbv zeta. unfold recv_pkt, bind. rewrite call_recv_NULL.
  destruct (drv_recv recv_NULL 0 (_dev w)) as [[r0 data0] d0]. cbn [fst snd].
  pose proof (to_int_range r0) as Hr. set (len := to_int r0) in *.
  unfold UINT16_MAX.
  split; intros Hlen.
  - replace (to_uint32 len >? to_uint32 65535) with true
      by (symmetry; apply Z.gtb_lt; rewrite !to_uint32_small; lia).
    cbn. rewrite <- app_assoc. split; reflexivity.
  - replace (to_uint32 len >? to_uint32 65535) with false
      by (symmetry; rewrite Z.gtb_ltb; apply Z.ltb_ge;
          rewrite !to_uint32_small; lia).
    rewrite to_uint32_small by lia.
    unfold modify, get_power, bind, ret, call_get, call_recv, upcall, modify.
    cbn [_dev set_dev record set_sReceiveFrame logged fst snd].
    destruct (drv_get NETOPT_TX_POWER sizeof_int16_t d0) as [[pres pval] d1].
    cbn [_dev set_dev record set_sReceiveFrame logged fst snd].
    destruct (drv_recv recv_sReceiveFrame_mPsdu len d1) as [[res data] d2].
    cbn [_dev set_dev record set_sReceiveFrame logged fst snd calls sReceiveFrame
         with_mPower with_mLength with_mPsdu mLength mPower mPsdu].
    exists (to_int pres), pval, (to_int res), data.
    exists (if to_int res >? 0 then addr_sReceiveFrame else NULL).
    exists (if to_int res >? 0 then kThreadError_None else kThreadError_Abort).
    repeat rewrite <- app_assoc. cbn [app].
    repeat apply conj; try reflexivity.
    + intros H. replace (to_int res >? 0) with true
        by (symmetry; apply Z.gtb_lt; lia). split; reflexivity.
    + intros H. replace (to_int res >? 0) with false
        by (symmetry; rewrite Z.gtb_ltb; apply Z.ltb_ge; lia). split; reflexivity.
Qed.

(** *** Properties of drivers whose [get] only reads *)

Section ReadOnlyGet.

(** Asking the device for a property leaves the device as it was. *)
Hypothesis get_readonly :
  forall opt max_len d, snd (drv_get opt max_len d) = d.

Lemma logged_nil (w : radio_t D) : logged [] w = w.
Proof. destruct w. unfold logged. cbn. rewrite app_nil_r. reflexivity. Qed.

Lemma logged_app (cs cs' : list call) (w : radio_t D) :
  logged cs' (logged cs w) = logged (cs ++ cs') w.
Proof. unfold logged. cbn. rewrite app_assoc. reflexivity. Qed.

Lemma get_state_readonly (w : radio_t D) :
  exists q,
    is_state_query q = true
    /\ get_state w = (device_state (_dev w), logged [q] w).
Proof.
  unfold get_state, bind, ret, call_get, device_state.
  pose proof (get_readonly NETOPT_STATE sizeof_enum (_dev w)) as Hro.
  destruct (drv_get NETOPT_STATE sizeof_enum (_dev w)) as [[res v] d].
  cbn [fst snd] in *. subst d.
  exists (driver_get NETOPT_STATE sizeof_enum (to_int res) v).
  split; [reflexivity |]. destruct w. reflexivity.
Qed.

(** The busy test answers [device_busy] and only queries the state. *)
Lemma is_busy_readonly (w : radio_t D) :
  exists qs,
    forallb is_state_query qs = true
    /\ is_busy w = (device_busy (_dev w), logged qs w).
Proof.
  unfold is_busy, orM, bind, ret, device_busy.
  destruct (get_state_readonly w) as (q1 & Hq1 & ->).
  destruct (device_state (_dev w) =? NETOPT_STATE_TX) eqn:Etx.
  - exists [q1]. cbn. rewrite Hq1. split; reflexivity.
  - destruct (get_state_readonly (logged [q1] w)) as (q2 & Hq2 & ->).
    exists [q1; q2]. cbn. rewrite Hq1, Hq2, logged_app. split; reflexivity.
Qed.

(** So does the test at the head of [otPlatRadioTransmit]. *)
Lemma is_rx_or_tx_readonly (w : radio_t D) :
  exists qs,
    forallb is_state_query qs = true
    /\ orM is_rx is_tx w = (device_busy (_dev w), logged qs w).
Proof.
  unfold is_rx, is_tx, orM, bind, ret, device_busy.
  destruct (get_state_readonly w) as (q1 & Hq1 & ->).
  destruct (device_state (_dev w) =? NETOPT_STATE_RX) eqn:Erx.
  - exists [q1]. cbn. rewrite Hq1, orb_true_r. split; reflexivity.
  - destruct (get_state_readonly (logged [q1] w)) as (q2 & Hq2 & ->).
    exists [q1; q2]. cbn. rewrite Hq1, Hq2, logged_app, orb_false_r.
    split; reflexivity.
Qed.

(** C1.  When the device reports that it is transmitting or receiving,
    [otPlatRadioTransmit] hits its assertion, and returns Busy where the
    assertion is compiled out; it leaves both frames and the device as they
    were, and the only calls it makes ask the device for its state: no
    channel, no power is set and nothing is sent. *)
Theorem transmit_while_busy (aPacket : packet_ptr) (w : radio_t D) :
  device_busy (_dev w) = true ->
  let r := fst (otPlatRadioTransmit NDEBUG aPacket w) in
  let w' := snd (otPlatRadioTransmit NDEBUG aPacket w) in
  r = (if NDEBUG then Returned kThreadError_Busy else AssertFailed)
  /\ sTransmitFrame w' = sTransmitFrame w
  /\ sReceiveFrame w' = sReceiveFrame w
  /\ _dev w' = _dev w
  /\ exists qs, calls w' = calls w ++ qs /\ forallb is_state_query qs = true.
Proof.
  intros Hbusy. cbv zeta. unfold otPlatRadioTransmit, bind.
  destruct (is_rx_or_tx_readonly w) as (qs & Hqs & ->).
  rewrite Hbusy. cbn. repeat split. exists qs. split; [reflexivity | exact Hqs].
Qed.

(** C10.  When the device reports that it is neither transmitting nor
    receiving, [otPlatRadioTransmit] sets the channel and the power of the
    outbound frame, sends the frame, and returns None whatever results these
    three driver calls gave. *)
Theorem transmit_returns_none (aPacket : packet_ptr) (w : radio_t D) :
  device_busy (_dev w) = false ->
  let frame := sTransmitFrame w in
  exists qs res_channel res_power res_send,
    fst (otPlatRadioTransmit NDEBUG aPacket w) = Returned kThreadError_None
    /\ forallb is_state_query qs = true
    /\ calls (snd (otPlatRadioTransmit NDEBUG aPacket w))
       = calls w ++ qs
         ++ [driver_set NETOPT_CHANNEL (Scalar (to_uint16 (mChannel frame)))
               sizeof_uint16_t res_channel;
             driver_set NETOPT_TX_POWER (Scalar (to_int16 (mPower frame)))
               sizeof_int16_t res_power;
             driver_send [mk_iovec (mPsdu frame) (mLength frame)] res_send].
Proof.
  intros Hfree. cbv zeta. unfold otPlatRadioTransmit, bind.
  destruct (is_rx_or_tx_readonly w) as (qs & Hqs & ->).
  rewrite Hfree. unfold read, set_channel, set_power, call_set, call_send, ret.
  cbn [sTransmitFrame logged _dev set_dev record].
  destruct (drv_set NETOPT_CHANNEL _ _ (_dev w)) as [rc d1].
  cbn [sTransmitFrame logged _dev set_dev record].
  destruct (drv_set NETOPT_TX_POWER _ _ d1) as [rp d2].
  cbn [sTransmitFrame logged _dev set_dev record].
  destruct (drv_send _ d2) as [rs d3].
  exists qs, (to_int rc), (to_int rp), (to_int rs).
  cbn [fst snd calls record set_dev logged].
  repeat rewrite <- app_assoc. cbn [app].
  repeat split. exact Hqs.
Qed.

(** *** Properties of drivers that also keep the state they are given *)

Section StoredState.

(** After the state is set, the device reports that state. *)
Hypothesis state_stored :
  forall v len d,
    device_state (snd (drv_set NETOPT_STATE (Scalar v) len d)) = to_int v.

Lemma set_state_stored (v : Z) (w : radio_t D) :
  exists res,
    set_state v w
    = (tt, logged [driver_set NETOPT_STATE (Scalar v) sizeof_enum res]
                  (set_dev (snd (drv_set NETOPT_STATE (Scalar v) sizeof_enum (_dev w))) w)).
Proof.
  unfold set_state, bind, ret.
  destruct (call_set_logged NETOPT_STATE (Scalar v) sizeof_enum w) as [res ->].
  exists res. reflexivity.
Qed.

(** C4, as the code has it.  [otPlatRadioEnable] always returns None.  When
    the device reports that it is transmitting or receiving, the call leaves
    the device as it was and only asks for its state; in every other state
    (off, sleeping, idle) it sets the device state to SLEEP. *)
Theorem enable_sets_sleep_unless_busy (w : radio_t D) :
  let w' := snd (otPlatRadioEnable w) in
  fst (otPlatRadioEnable w) = kThreadError_None
  /\ (device_busy (_dev w) = true ->
        _dev w' = _dev w
        /\ exists qs, calls w' = calls w ++ qs /\ forallb is_state_query qs = true)
  /\ (device_busy (_dev w) = false ->
        device_state (_dev w') = NETOPT_STATE_SLEEP
        /\ exists qs res,
             calls w' = calls w ++ qs
                        ++ [driver_set NETOPT_STATE (Scalar NETOPT_STATE_SLEEP)
                              sizeof_enum res]
             /\ forallb is_state_query qs = true).
Proof.
  cbv zeta. unfold otPlatRadioEnable, bind.
  destruct (is_busy_readonly w) as (qs & Hqs & ->).
  destruct (device_busy (_dev w)) eqn:Hbusy.
  - cbn. repeat split; try discriminate.
    exists qs. split; [reflexivity | exact Hqs].
  - destruct (set_state_stored NETOPT_STATE_SLEEP (logged qs w)) as [res ->].
    cbn [fst snd ret logged _dev set_dev calls].
    repeat split; try discriminate.
    + apply state_stored.
    + exists qs, res. rewrite <- app_assoc. split; [reflexivity | exact Hqs].
Qed.

(** C5.  When the device reports that it is neither transmitting nor
    receiving, [otPlatRadioSleep] returns None after setting the device state
    to SLEEP and then to OFF, and the device ends up reporting OFF.  When the
    device reports that it is transmitting or receiving, the call returns Busy,
    leaves the device as it was and only asks for its state. *)
Theorem sleep_disables_unless_busy (w : radio_t D) :
  let w' := snd (otPlatRadioSleep w) in
  (device_busy (_dev w) = false ->
     fst (otPlatRadioSleep w) = kThreadError_None
     /\ device_state (_dev w') = NETOPT_STATE_OFF
     /\ exists qs1 res1 qs2 res2,
          calls w' = calls w ++ qs1
                     ++ [driver_set NETOPT_STATE (Scalar NETOPT_STATE_SLEEP)
                           sizeof_enum res1]
                     ++ qs2
                     ++ [driver_set NETOPT_STATE (Scalar NETOPT_STATE_OFF)
                           sizeof_enum res2]
          /\ forallb is_state_query qs1 = true
          /\ forallb is_state_query qs2 = true)
  /\ (device_busy (_dev w) = true ->
        fst (otPlatRadioSleep w) = kThreadError_Busy
        /\ _dev w' = _dev w
        /\ exists qs, calls w' = calls w ++ qs /\ forallb is_state_query qs = true).
Proof.
  cbv zeta. unfold otPlatRadioSleep, bind.
  destruct (is_busy_readonly w) as (qs1 & Hqs1 & ->).
  destruct (device_busy (_dev w)) eqn:Hbusy.
  - cbn. repeat split; try discriminate.
    exists qs1. split; [reflexivity | exact Hqs1].
  - destruct (set_state_stored NETOPT_STATE_SLEEP (logged qs1 w)) as [res1 ->].
    unfold otPlatRadioDisable, bind.
    match goal with
    | |- context [is_busy ?w1] =>
        destruct (is_busy_readonly w1) as (qs2 & Hqs2 & ->);
        assert (Hsleep : device_busy (_dev w1) = false)
    end.
    { cbn [logged _dev set_dev]. unfold device_busy.
      rewrite state_stored. reflexivity. }
    rewrite Hsleep.
    match goal with
    | |- context [set_state NETOPT_STATE_OFF ?w2] =>
        destruct (set_state_stored NETOPT_STATE_OFF w2) as [res2 ->]
    end.
    cbn [fst snd ret logged _dev set_dev calls].
    repeat split; try discriminate.
    + apply state_stored.
    + exists qs1, res1, qs2, res2. repeat rewrite <- app_assoc.
      repeat split; assumption.
Qed.

End StoredState.

End ReadOnlyGet.

(** *** Properties of drivers that echo the long address *)

Section EchoLongAddress.

(** Reading the long address gives the octets last written to it. *)
Hypothesis long_addr_echo :
  forall l len max_len d,
    snd (fst (drv_get NETOPT_ADDRESS_LONG max_len
                (snd (drv_set NETOPT_ADDRESS_LONG (Octets l) len d))))
    = Octets l.

(** C8, as the code has it.  For an 8-octet extended address, the one call
    [otPlatRadioSetExtendedAddress] makes hands the device the address with its
    octets in reverse order, and [otPlatRadioGetIeeeEui64] called next reads
    back those reversed octets: the getter does not undo the reversal. *)
Theorem extended_address_reversed (a : list Byte.byte) (w : radio_t D) :
  length a = IEEE802154_LONG_ADDRESS_LEN ->
  let w1 := snd (otPlatRadioSetExtendedAddress a w) in
  (exists res,
     calls w1 = calls w ++ [driver_set NETOPT_ADDRESS_LONG (Octets (rev a))
                              sizeof_uint64_t res])
  /\ fst (otPlatRadioGetIeeeEui64 w1) = rev a.
Proof.
  intros Hlen. cbv zeta.
  unfold otPlatRadioSetExtendedAddress, set_long_addr, bind, ret.
  rewrite (reversed_addr_rev a Hlen).
  destruct (call_set_logged NETOPT_ADDRESS_LONG (Octets (rev a))
              sizeof_uint64_t w) as [res ->].
  cbn [fst snd]. split.
  - exists res. reflexivity.
  - unfold otPlatRadioGetIeeeEui64, get_long_addr, bind, ret, call_get.
    cbn [logged _dev set_dev].
    pose proof (long_addr_echo (rev a) sizeof_uint64_t sizeof_uint64_t (_dev w)) as E.
    destruct (drv_get NETOPT_ADDRESS_LONG sizeof_uint64_t _) as [[r v] d].
    cbn [fst snd] in *. rewrite E. reflexivity.
Qed.

End EchoLongAddress.

End RadioProofs.

(** *** The storing device obeys the three laws *)

Lemma mock_get_readonly (opt : netopt_t) (max_len : Z) (d : mock_dev) :
  snd (drv_get opt max_len d) = d.
Proof. reflexivity. Qed.

Lemma mock_state_stored (v len : Z) (d : mock_dev) :
  device_state (snd (drv_set NETOPT_STATE (Scalar v) len d)) = to_int v.
Proof. reflexivity. Qed.

Lemma mock_long_addr_echo (l : list Byte.byte) (len max_len : Z) (d : mock_dev) :
  snd (fst (drv_get NETOPT_ADDRESS_LONG max_len
              (snd (drv_set NETOPT_ADDRESS_LONG (Octets l) len d))))
  = Octets l.
Proof. reflexivity. Qed.

(** *** The theorems at concrete inputs *)

(** A transmitting device: the assertion fires and the outbound frame stays. *)
Lemma transmit_while_busy_witness :
  device_busy (_dev (mock_world NETOPT_STATE_TX)) = true
  /\ fst (otPlatRadioTransmit false addr_sTransmitFrame (mock_world NETOPT_STATE_TX))
     = AssertFailed.
Proof.
  split; [reflexivity |].
  exact (proj1 (transmit_while_busy false mock_get_readonly addr_sTransmitFrame
                  (mock_world NETOPT_STATE_TX) eq_refl)).
Defined.

(** PAN id 0x1234 and short address 0xabcd reach the device as 0x3412 and
    0xcdab. *)
Lemma set_panid_short_addr_swapped_witness :
  (0 <= 0x1234 < 2 ^ 16 /\ 0 <= 0xabcd < 2 ^ 16)
  /\ byte_swapped 0x1234 mod 256 = 0x1234 / 256.
Proof.
  assert (Hp : 0 <= 0x1234 < 2 ^ 16) by (split; [lia | reflexivity]).
  assert (Ha : 0 <= 0xabcd < 2 ^ 16) by (split; [lia | reflexivity]).
  split; [split; assumption |].
  exact (proj1 (proj1 (proj2 (proj2
    (set_panid_short_addr_swapped 0x1234 0xabcd (mock_world NETOPT_STATE_IDLE)
       Hp Ha))))).
Defined.

(** A frame announced with 65536 octets is refused, a frame of 3 octets is
    taken. *)
Lemma recv_pkt_length_check_witness :
  (UINT16_MAX < to_int (fst (fst (drv_recv recv_NULL 0 (_dev (mock_world_rx 65536 sample_frame))))))
  /\ sReceiveFrame (snd (recv_pkt openthread_fields (mock_world_rx 65536 sample_frame)))
     = sReceiveFrame (mock_world_rx 65536 sample_frame)
  /\ (0 <= to_int (fst (fst (drv_recv recv_NULL 0 (_dev (mock_world_rx 3 sample_frame)))))
      <= UINT16_MAX)
  /\ mLength (sReceiveFrame (snd (recv_pkt openthread_fields (mock_world_rx 3 sample_frame)))) = 3.
Proof.
  assert (Hlong : UINT16_MAX
                  < to_int (fst (fst (drv_recv recv_NULL 0
                                        (_dev (mock_world_rx 65536 sample_frame))))))
    by (vm_compute; reflexivity).
  assert (Hshort : 0 <= to_int (fst (fst (drv_recv recv_NULL 0
                                            (_dev (mock_world_rx 3 sample_frame)))))
                   <= UINT16_MAX)
    by (vm_compute; split; discriminate).
  split; [exact Hlong |].
  split; [exact (proj2 (proj1 (recv_pkt_length_check openthread_fields
                                 (mock_world_rx 65536 sample_frame)) Hlong)) |].
  split; [exact Hshort |].
  destruct (proj2 (recv_pkt_length_check openthread_fields (mock_world_rx 3 sample_frame)) Hshort)
    as (pres & pval & res & data & pkt & err & _ & _ & _ & Hlen & _).
  exact Hlen.
Defined.

(** An idle device: the frame goes out and the call returns None. *)
Lemma transmit_returns_none_witness :
  device_busy (_dev (mock_world NETOPT_STATE_IDLE)) = false
  /\ fst (otPlatRadioTransmit false addr_sTransmitFrame (mock_world NETOPT_STATE_IDLE))
     = Returned kThreadError_None.
Proof.
  split; [reflexivity |].
  destruct (transmit_returns_none false mock_get_readonly addr_sTransmitFrame
              (mock_world NETOPT_STATE_IDLE) eq_refl)
    as (qs & rc & rp & rs & Hret & _).
  exact Hret.
Defined.

(** C4 as stated fails: an idle (receiving-ready, hence active) device is put
    to sleep by [otPlatRadioEnable]. *)
Lemma enable_changes_idle_device :
  device_state (_dev (mock_world NETOPT_STATE_IDLE)) = NETOPT_STATE_IDLE
  /\ NETOPT_STATE_IDLE <> NETOPT_STATE_OFF
  /\ fst (otPlatRadioEnable (mock_world NETOPT_STATE_IDLE)) = kThreadError_None
  /\ device_state (_dev (snd (otPlatRadioEnable (mock_world NETOPT_STATE_IDLE))))
     = NETOPT_STATE_SLEEP
  /\ NETOPT_STATE_SLEEP <> NETOPT_STATE_IDLE.
Proof. repeat split; discriminate. Qed.

(** Enable on a device that is off and on a device that is transmitting. *)
Lemma enable_sets_sleep_unless_busy_witness :
  device_state (_dev (snd (otPlatRadioEnable (mock_world NETOPT_STATE_OFF))))
  = NETOPT_STATE_SLEEP
  /\ _dev (snd (otPlatRadioEnable (mock_world NETOPT_STATE_TX)))
     = _dev (mock_world NETOPT_STATE_TX).
Proof.
  split.
  - exact (proj1 (proj2 (proj2 (enable_sets_sleep_unless_busy mock_get_readonly
                                   mock_state_stored (mock_world NETOPT_STATE_OFF)))
                   eq_refl)).
  - exact (proj1 (proj1 (proj2 (enable_sets_sleep_unless_busy mock_get_readonly
                                   mock_state_stored (mock_world NETOPT_STATE_TX)))
                   eq_refl)).
Defined.

(** Sleep on an idle device and on a receiving device. *)
Lemma sleep_disables_unless_busy_witness :
  device_state (_dev (snd (otPlatRadioSleep (mock_world NETOPT_STATE_IDLE))))
  = NETOPT_STATE_OFF
  /\ fst (otPlatRadioSleep (mock_world NETOPT_STATE_RX)) = kThreadError_Busy.
Proof.
  split.
  - exact (proj1 (proj2 (proj1 (sleep_disables_unless_busy mock_get_readonly
                                   mock_state_stored (mock_world NETOPT_STATE_IDLE))
                          eq_refl))).
  - exact (proj1 (proj2 (sleep_disables_unless_busy mock_get_readonly
                           mock_state_stored (mock_world NETOPT_STATE_RX))
                    eq_refl)).
Defined.

(** C8 as stated fails: the address 01..08, set and read back through the
    storing device, comes back as 08..01. *)
Lemma extended_address_not_restored :
  fst (otPlatRadioGetIeeeEui64
         (snd (otPlatRadioSetExtendedAddress sample_addr
                 (mock_world NETOPT_STATE_IDLE))))
  = [Byte.x08; Byte.x07; Byte.x06; Byte.x05; Byte.x04; Byte.x03; Byte.x02; Byte.x01]
  /\ fst (otPlatRadioGetIeeeEui64
            (snd (otPlatRadioSetExtendedAddress sample_addr
                    (mock_world NETOPT_STATE_IDLE))))
     <> sample_addr.
Proof. split; [reflexivity | discriminate]. Qed.

Lemma extended_address_reversed_witness :
  length sample_addr = IEEE802154_LONG_ADDRESS_LEN
  /\ fst (otPlatRadioGetIeeeEui64
            (snd (otPlatRadioSetExtendedAddress sample_addr
                    (mock_world NETOPT_STATE_IDLE))))
     = rev sample_addr.
Proof.
  split; [reflexivity |].
  exact (proj2 (extended_address_reversed mock_long_addr_echo sample_addr
                  (mock_world NETOPT_STATE_IDLE) eq_refl)).
Defined.

(** ** The alarm *)

Lemma to_uint32_to_int (z : Z) : to_uint32 (to_int z) = to_uint32 z.
Proof.
  unfold to_uint32, to_int.
  rewrite Zminus_mod_idemp_l. f_equal. lia.
Qed.

Lemma to_uint32_idem (z : Z) : to_uint32 (to_uint32 z) = to_uint32 z.
Proof. unfold to_uint32. apply Z.mod_mod. lia. Qed.

(** The reference time plays no part in what [otPlatAlarmMilliStartAt] does. *)
Lemma start_at_reference_time_unused (aT0 aT0' aDt : Z) (a : Alarm.alarm_t) :
  Alarm.otPlatAlarmMilliStartAt aT0 aDt a = Alarm.otPlatAlarmMilliStartAt aT0' aDt a.
Proof. reflexivity. Qed.

(** With a zero delay the notification is enqueued in the call itself and the
    timer is left alone. *)
Lemma start_at_zero_delay (aT0 : Z) (a : Alarm.alarm_t) :
  (length (Alarm.queue a) < Alarm.OPENTHREAD_QUEUE_LEN)%nat ->
  Alarm.queue (Alarm.otPlatAlarmMilliStartAt aT0 0 a)
  = Alarm.queue a ++ [Alarm.mk_msg Alarm.OPENTHREAD_XTIMER_MSG_TYPE_EVENT]
  /\ Alarm.ot_timer (Alarm.otPlatAlarmMilliStartAt aT0 0 a) = Alarm.ot_timer a.
Proof.
  intros Hroom. apply Nat.ltb_lt in Hroom.
  unfold Alarm.otPlatAlarmMilliStartAt.
  change (to_uint32 0 =? 0) with true. cbv iota.
  unfold Alarm.msg_send.
  cbn [Alarm.queue Alarm.set_ot_alarm_msg Alarm.ot_alarm_msg Alarm._pid].
  rewrite Hroom. split; reflexivity.
Qed.

(** C6.  [otPlatAlarmMilliStartAt] called 20 ms after the reference time 1000
    with a delay of 50 ms arms the timer for 1070 ms, where the documented
    deadline is 1050 ms; whatever the reference time, the call does the
    same. *)
Theorem start_at_deadline_from_now :
  Alarm.deadline_us (Alarm.otPlatAlarmMilliStartAt 1000 50 (Alarm.idle_at 1020000))
  = Some 1070000
  /\ Alarm.documented_deadline_us 1000 50 = 1050000
  /\ forall aT0,
       Alarm.otPlatAlarmMilliStartAt aT0 50 (Alarm.idle_at 1020000)
       = Alarm.otPlatAlarmMilliStartAt 1000 50 (Alarm.idle_at 1020000).
Proof. repeat split. Qed.

(** C7 as stated fails: with an alarm pending for the instant 5000, a call
    with delay zero enqueues its notification and leaves the timer armed, and
    at the instant 5000 the earlier alarm fires as well. *)
Lemma zero_delay_keeps_pending_alarm :
  let ev := Alarm.mk_msg Alarm.OPENTHREAD_XTIMER_MSG_TYPE_EVENT in
  let pending := Alarm.otPlatAlarmMilliStartAt 0 5 (Alarm.idle_at 0) in
  let restarted := Alarm.otPlatAlarmMilliStartAt 0 0 pending in
  Alarm.ot_timer pending = Some 5000
  /\ Alarm.queue pending = []
  /\ Alarm.ot_timer restarted = Some 5000
  /\ Alarm.queue restarted = [ev]
  /\ Alarm.queue (Alarm.xtimer_advance 5000 restarted) = [ev; ev].
Proof. repeat split. Qed.

Lemma msg_send_at_most_one (m : Alarm.msg_t) (pid : Z) (a : Alarm.alarm_t) :
  (length (Alarm.queue (Alarm.msg_send m pid a)) <= S (length (Alarm.queue a)))%nat.
Proof.
  unfold Alarm.msg_send.
  destruct (length (Alarm.queue a) <? Alarm.OPENTHREAD_QUEUE_LEN)%nat;
    cbn [Alarm.queue Alarm.set_queue]; [rewrite length_app; cbn [length] |]; lia.
Qed.

Lemma xtimer_advance_at_most_one (t : Z) (a : Alarm.alarm_t) :
  (length (Alarm.queue (Alarm.xtimer_advance t a)) <= S (length (Alarm.queue a)))%nat.
Proof.
  unfold Alarm.xtimer_advance. cbv zeta.
  cbn [Alarm.ot_timer Alarm.set_clock_us Alarm.clock_us].
  destruct (Alarm.ot_timer a) as [deadline |]; [| cbn; lia].
  destruct (deadline <=? Z.max t (Alarm.clock_us a)); [| cbn; lia].
  exact (msg_send_at_most_one _ _
           (Alarm.set_ot_timer None
              (Alarm.set_clock_us (Z.max t (Alarm.clock_us a)) a))).
Qed.

(** C7, as the code has it.  A call with a nonzero delay arms the one timer
    for [aDt] milliseconds from now whatever was pending, enqueues nothing, and
    from then on at most one notification is delivered however far time
    advances.  A call with delay zero enqueues the notification in the call and
    leaves the timer as it was.  Stopping an alarm that is not armed changes
    nothing. *)
Theorem start_at_rearms_single_timer (aT0 aDt : Z) (a : Alarm.alarm_t) :
  let a' := Alarm.otPlatAlarmMilliStartAt aT0 aDt a in
  (to_uint32 aDt <> 0 ->
     Alarm.ot_timer a'
     = Some (Alarm.clock_us a + to_uint32 (to_uint32 aDt * Alarm.US_PER_MS))
     /\ Alarm.queue a' = Alarm.queue a
     /\ forall t,
          (length (Alarm.queue (Alarm.xtimer_advance t a'))
           <= S (length (Alarm.queue a)))%nat)
  /\ (to_uint32 aDt = 0 ->
        Alarm.ot_timer a' = Alarm.ot_timer a
        /\ Alarm.queue a'
           = Alarm.queue
               (Alarm.msg_send (Alarm.mk_msg Alarm.OPENTHREAD_XTIMER_MSG_TYPE_EVENT)
                  (Alarm._pid a) a))
  /\ (Alarm.ot_timer a = None -> Alarm.otPlatAlarmMilliStop a = a).
Proof.
  cbv zeta. unfold Alarm.otPlatAlarmMilliStartAt.
  repeat apply conj.
  - intros Hdt. apply Z.eqb_neq in Hdt. rewrite Hdt.
    assert (Hq : Alarm.queue
                   (Alarm.xtimer_set_msg
                      (to_int (to_uint32 (to_uint32 aDt * Alarm.US_PER_MS)))
                      (Alarm._pid a)
                      (Alarm.set_ot_alarm_msg
                         (Alarm.mk_msg Alarm.OPENTHREAD_XTIMER_MSG_TYPE_EVENT) a))
                 = Alarm.queue a) by reflexivity.
    repeat apply conj.
    + unfold Alarm.xtimer_set_msg.
      cbn [Alarm.ot_timer Alarm.set_ot_timer Alarm.clock_us Alarm.set_ot_alarm_msg].
      rewrite to_uint32_to_int, to_uint32_idem. reflexivity.
    + exact Hq.
    + intros t. rewrite <- Hq. apply xtimer_advance_at_most_one.
  - intros Hdt. rewrite Hdt. change (0 =? 0) with true. cbv iota.
    unfold Alarm.msg_send.
    cbn [Alarm.queue Alarm.set_ot_alarm_msg Alarm.ot_alarm_msg Alarm._pid].
    destruct (length (Alarm.queue a) <? Alarm.OPENTHREAD_QUEUE_LEN)%nat;
      split; reflexivity.
  - intros Hidle. unfold Alarm.otPlatAlarmMilliStop, Alarm.xtimer_remove.
    rewrite Hidle. reflexivity.
Qed.

Lemma start_at_rearms_single_timer_witness :
  Alarm.ot_timer
    (Alarm.otPlatAlarmMilliStartAt 0 7
       (Alarm.otPlatAlarmMilliStartAt 0 5 (Alarm.idle_at 0)))
  = Some 7000
  /\ Alarm.ot_timer (Alarm.otPlatAlarmMilliStartAt 0 0 (Alarm.idle_at 0)) = None
  /\ Alarm.otPlatAlarmMilliStop (Alarm.idle_at 0) = Alarm.idle_at 0.
Proof.
  split; [| split].
  - refine (proj1 (proj1 (start_at_rearms_single_timer 0 7
               (Alarm.otPlatAlarmMilliStartAt 0 5 (Alarm.idle_at 0))) _)).
    vm_compute. discriminate.
  - refine (proj1 (proj1 (proj2 (start_at_rearms_single_timer 0 0
               (Alarm.idle_at 0))) _)).
    reflexivity.
  - refine (proj2 (proj2 (start_at_rearms_single_timer 0 0 (Alarm.idle_at 0))) _).
    reflexivity.
Defined.

(** ** Further properties of the radio adapter *)

Section RadioRuns.

Context {D : Type} {drv : netdev2_driver D}.
Variable NDEBUG : bool.
Variable fields : RadioPacket_fields.

(** *** What a run of the adapter leaves behind *)

Section Footprint.

Variable P : call -> bool.

Lemma footprint_ret {A} (a : A) : footprint (D := D) P (ret a).
Proof.
  intros w. exists []. cbn. rewrite app_nil_r. repeat split.
Qed.

Lemma footprint_bind {A B} (c : M A) (k : A -> M B) :
  footprint P c -> (forall a, footprint P (k a)) -> footprint (D := D) P (bind c k).
Proof.
  intros Hc Hk w. unfold bind.
  destruct (Hc w) as (cs1 & E1 & F1 & T1 & C1).
  destruct (c w) as [a w1]. cbn [snd] in *.
  destruct (Hk a w1) as (cs2 & E2 & F2 & T2 & C2).
  exists (cs1 ++ cs2).
  rewrite E2, E1, T2, T1, C2, C1, forallb_app, F1, F2, app_assoc.
  repeat split.
Qed.

Lemma footprint_if {A} (b : bool) (c1 c2 : M A) :
  footprint P c1 -> footprint P c2 -> footprint (D := D) P (if b then c1 else c2).
Proof. destruct b; trivial. Qed.

Lemma footprint_orM (a b : M bool) :
  footprint P a -> footprint P b -> footprint (D := D) P (orM a b).
Proof.
  intros Ha Hb. unfold orM. apply footprint_bind; [exact Ha |].
  intros x. apply footprint_if; [apply footprint_ret | exact Hb].
Qed.

Lemma footprint_forget {A} (c : M A) :
  footprint P c -> footprint (D := D) P (forget c).
Proof.
  intros Hc. unfold forget. apply footprint_bind; [exact Hc |].
  intros a. apply footprint_ret.
Qed.

Lemma footprint_read {A} (f : radio_t D -> A) : footprint P (read f).
Proof.
  intros w. exists []. cbn. rewrite app_nil_r. repeat split.
Qed.

Lemma footprint_rx_frame (f : radio_t D -> RadioPacket) :
  footprint P (modify (fun w => set_sReceiveFrame (f w) w)).
Proof.
  intros w. exists []. cbn. rewrite app_nil_r. repeat split.
Qed.

Lemma footprint_call_get (opt : netopt_t) (max_len : Z) :
  (forall res v, P (driver_get opt max_len res v) = true) ->
  footprint (D := D) P (call_get opt max_len).
Proof.
  intros HP w. unfold call_get.
  destruct (drv_get opt max_len (_dev w)) as [[res v] d].
  exists [driver_get opt max_len (to_int res) v]. cbn. rewrite HP. repeat split.
Qed.

Lemma footprint_call_set (opt : netopt_t) (v : optval) (len : Z) :
  (forall res, P (driver_set opt v len res) = true) ->
  footprint (D := D) P (call_set opt v len).
Proof.
  intros HP w. unfold call_set.
  destruct (drv_set opt v len (_dev w)) as [res d].
  exists [driver_set opt v len (to_int res)]. cbn. rewrite HP. repeat split.
Qed.

Lemma footprint_call_send (vector : list iovec) :
  (forall res, P (driver_send vector res) = true) ->
  footprint (D := D) P (call_send vector).
Proof.
  intros HP w. unfold call_send.
  destruct (drv_send vector (_dev w)) as [res d].
  exists [driver_send vector (to_int res)]. cbn. rewrite HP. repeat split.
Qed.

Lemma footprint_call_recv (buf : recv_buf) (len : Z) :
  (forall res, P (driver_recv buf len res) = true) ->
  footprint (D := D) P (call_recv buf len).
Proof.
  intros HP w. unfold call_recv.
  destruct (drv_recv buf len (_dev w)) as [[res data] d].
  exists [driver_recv buf len (to_int res)].
  destruct buf; cbn; rewrite HP; repeat split.
Qed.

Lemma footprint_upcall (c : call) :
  P c = true -> footprint (D := D) P (upcall c).
Proof.
  intros HP w. exists [c]. cbn. rewrite HP. repeat split.
Qed.

(** A run is as good as its entries. *)
Lemma run_entries_footprint (ok : entry -> bool) :
  (forall e, ok e = true -> footprint P (run_entry NDEBUG fields e)) ->
  forall es, forallb ok es = true -> footprint P (run_entries NDEBUG fields es).
Proof.
  intros Hok es. induction es as [| e es IH]; intros Hes.
  - apply footprint_ret.
  - cbn in Hes. apply andb_true_iff in Hes. destruct Hes as [He Hes].
    cbn [run_entries]. apply footprint_bind; [apply Hok; exact He |].
    intros _. apply IH. exact Hes.
Qed.

End Footprint.

Ltac footprint_steps :=
  repeat first
    [ apply footprint_ret
    | apply footprint_read
    | apply footprint_rx_frame
    | apply footprint_forget
    | apply footprint_orM
    | apply footprint_if
    | apply footprint_bind; [| intro]
    | apply footprint_call_get; intros; reflexivity
    | apply footprint_call_set; intros; reflexivity
    | apply footprint_call_send; intros; reflexivity
    | apply footprint_call_recv; intros; reflexivity
    | apply footprint_upcall; reflexivity
    | progress cbv zeta ].

Ltac open_entry :=
  cbn [run_entry];
  unfold otPlatRadioEnable, otPlatRadioDisable, otPlatRadioIsEnabled,
    otPlatRadioSleep, otPlatRadioDisable, otPlatRadioReceive, otPlatRadioTransmit,
    otPlatRadioGetTransmitBuffer, otPlatRadioGetIeeeEui64, otPlatRadioSetPanId,
    otPlatRadioSetExtendedAddress, otPlatRadioSetShortAddress,
    otPlatRadioSetDefaultTxPower, otPlatRadioGetPromiscuous,
    otPlatRadioSetPromiscuous, otPlatRadioGetCaps, otPlatRadioGetRssi,
    otPlatRadioGetNoiseFloor, otPlatRadioEnergyScan, otPlatRadioEnableSrcMatch,
    otPlatRadioAddSrcMatchShortEntry, otPlatRadioAddSrcMatchExtEntry,
    otPlatRadioClearSrcMatchShortEntry, otPlatRadioClearSrcMatchExtEntry,
    otPlatRadioClearSrcMatchShortEntries, otPlatRadioClearSrcMatchExtEntries,
    recv_pkt, sent_pkt,
    is_busy, is_rx, is_tx, is_promiscuous, get_state, set_state, get_power,
    set_power, set_channel, set_panid, set_addr, set_long_addr, get_long_addr,
    set_promiscuous.

Lemma existsb_false_forallb {A} (f : A -> bool) (l : list A) :
  forallb (fun x => negb (f x)) l = true -> existsb f l = false.
Proof.
  induction l as [| x l IH]; cbn; [reflexivity |].
  intros H. apply andb_true_iff in H. destruct H as [Hx Hl].
  apply negb_true_iff in Hx. rewrite Hx, (IH Hl). reflexivity.
Qed.

Ltac each_entry e :=
  destruct e as [| | | | | | | | | | | | | | | | | | | | | | | | | | ev];
  [.. | destruct ev]; try discriminate; open_entry; footprint_steps.

Lemma forallb_always {A} (l : list A) : forallb (fun _ => true) l = true.
Proof. induction l; [reflexivity | assumption]. Qed.

Lemma entry_footprint_any (e : entry) :
  footprint (fun _ => true) (run_entry (D := D) NDEBUG fields e).
Proof. each_entry e. Qed.

Lemma entry_footprint_rest_states (e : entry) :
  footprint keeps_to_rest_states (run_entry (D := D) NDEBUG fields e).
Proof. each_entry e. Qed.

Lemma entry_footprint_no_send (e : entry) :
  negb (is_transmit_entry e) = true ->
  footprint (fun c => negb (is_send c)) (run_entry (D := D) NDEBUG fields e).
Proof. intros He. each_entry e. Qed.

Lemma entry_footprint_no_upcall (e : entry) :
  negb (is_event_entry e) = true ->
  footprint (fun c => negb (is_upcall c || is_recv c))
            (run_entry (D := D) NDEBUG fields e).
Proof. intros He. each_entry e. Qed.

(** X1.  Whatever sequence of platform calls and driver events is run, the
    adapter never writes the outbound frame nor the capabilities, and the
    transcript is only ever extended. *)
Theorem adapter_keeps_outbound_frame (es : list entry) (w : radio_t D) :
  let w' := snd (run_entries NDEBUG fields es w) in
  sTransmitFrame w' = sTransmitFrame w
  /\ sRadioCaps w' = sRadioCaps w
  /\ exists cs, calls w' = calls w ++ cs.
Proof.
  cbv zeta.
  destruct (run_entries_footprint (fun _ => true) (fun _ => true)
              (fun e _ => entry_footprint_any e) es (forallb_always es) w)
    as (cs & E & _ & T & C).
  repeat split; [exact T | exact C | exists cs; exact E].
Qed.

(** X2.  Whatever sequence of platform calls and driver events is run, every
    state the adapter itself sets on the device is OFF, SLEEP or IDLE: it
    never puts the device into RX or TX. *)
Theorem adapter_sets_rest_states_only (es : list entry) (w : radio_t D) :
  exists cs,
    calls (snd (run_entries NDEBUG fields es w)) = calls w ++ cs
    /\ forallb keeps_to_rest_states cs = true.
Proof.
  destruct (run_entries_footprint keeps_to_rest_states (fun _ => true)
              (fun e _ => entry_footprint_rest_states e) es (forallb_always es) w)
    as (cs & E & F & _).
  exists cs. split; assumption.
Qed.

(** X3.  A run without [otPlatRadioTransmit] never calls the driver's [send],
    whatever else is called and whatever events arrive. *)
Theorem only_transmit_sends (es : list entry) (w : radio_t D) :
  existsb is_transmit_entry es = false ->
  exists cs,
    calls (snd (run_entries NDEBUG fields es w)) = calls w ++ cs
    /\ existsb is_send cs = false.
Proof.
  intros Hes.
  assert (Hall : forallb (fun e => negb (is_transmit_entry e)) es = true).
  { apply forallb_forall. intros e He. apply negb_true_iff.
    destruct (is_transmit_entry e) eqn:Ee; [| reflexivity].
    assert (existsb is_transmit_entry es = true)
      by (apply existsb_exists; exists e; split; assumption).
    congruence. }
  destruct (run_entries_footprint _ _ entry_footprint_no_send es Hall w)
    as (cs & E & F & _).
  exists cs. split; [exact E | apply existsb_false_forallb; exact F].
Qed.

(** X4.  A run of platform calls alone, with no driver event, never calls
    back into OpenThread and never asks the driver for a received frame. *)
Theorem commands_never_call_back (es : list entry) (w : radio_t D) :
  existsb is_event_entry es = false ->
  exists cs,
    calls (snd (run_entries NDEBUG fields es w)) = calls w ++ cs
    /\ existsb (fun c => is_upcall c || is_recv c) cs = false.
Proof.
  intros Hes.
  assert (Hall : forallb (fun e => negb (is_event_entry e)) es = true).
  { apply forallb_forall. intros e He. apply negb_true_iff.
    destruct (is_event_entry e) eqn:Ee; [| reflexivity].
    assert (existsb is_event_entry es = true)
      by (apply existsb_exists; exists e; split; assumption).
    congruence. }
  destruct (run_entries_footprint _ _ entry_footprint_no_upcall es Hall w)
    as (cs & E & F & _).
  exists cs. split; [exact E | apply existsb_false_forallb; exact F].
Qed.

(** *** Driver events at the edges *)

(** X5.  A negative answer to the length query (the driver's way to report an
    error) is handled like an oversized frame: the unsigned comparison sends
    it to the Abort upcall with no frame, the inbound frame is untouched and
    the buffer is never read into. *)
Theorem recv_pkt_negative_length (w : radio_t D) :
  let len := to_int (fst (fst (drv_recv recv_NULL 0 (_dev w)))) in
  let w' := snd (recv_pkt fields w) in
  len < 0 ->
  calls w' = calls w ++ [driver_recv recv_NULL 0 len;
                         otPlatRadioReceiveDone NULL kThreadError_Abort]
  /\ sReceiveFrame w' = sReceiveFrame w
  /\ sTransmitFrame w' = sTransmitFrame w.
Proof.
  cbv zeta. unfold recv_pkt, bind. rewrite call_recv_NULL.
  destruct (drv_recv recv_NULL 0 (_dev w)) as [[r0 data0] d0]. cbn [fst snd].
  pose proof (to_int_range r0) as Hr. set (len := to_int r0) in *.
  intros Hneg. unfold UINT16_MAX.
  assert (Hwrap : to_uint32 len = len + 2 ^ 32).
  { unfold to_uint32. symmetry. apply Z.mod_unique with (q := -1); lia. }
  replace (to_uint32 len >? to_uint32 65535) with true
    by (symmetry; apply Z.gtb_lt; rewrite Hwrap, to_uint32_small; lia).
  cbn. rewrite <- app_assoc. repeat split.
Qed.


(** *** The 16-bit and 64-bit identifiers *)

Lemma byte_swapped_range (x : Z) :
  0 <= x < 2 ^ 16 -> 0 <= byte_swapped x < 2 ^ 16.
Proof.
  intros Hx. unfold byte_swapped.
  assert (0 <= x / 256 < 256)
    by (split; [apply Z.div_pos | apply Z.div_lt_upper_bound]; lia).
  assert (0 <= x mod 256 < 256) by (apply Z.mod_pos_bound; lia).
  lia.
Qed.

Lemma byte_swapped_involutive (x : Z) :
  0 <= x < 2 ^ 16 -> byte_swapped (byte_swapped x) = x.
Proof.
  intros Hx. destruct (byte_swapped_octets x Hx) as [Hlo Hhi].
  unfold byte_swapped at 1. rewrite Hlo, Hhi.
  pose proof (Z.div_mod x 256 ltac:(lia)). lia.
Qed.

(** X7.  The swap of [otPlatRadioSetPanId] and [otPlatRadioSetShortAddress]
    loses nothing: two 16-bit identifiers reach the device as the same value
    only when they are equal, and handing the adapter an already swapped
    identifier sets the plain one. *)
Theorem panid_swap_is_one_to_one (p q : Z) (w : radio_t D) :
  0 <= p < 2 ^ 16 ->
  0 <= q < 2 ^ 16 ->
  (forall v res res',
     calls (snd (otPlatRadioSetPanId p w))
     = calls w ++ [driver_set NETOPT_NID (Scalar v) sizeof_uint16_t res] ->
     calls (snd (otPlatRadioSetPanId q w))
     = calls w ++ [driver_set NETOPT_NID (Scalar v) sizeof_uint16_t res'] ->
     p = q)
  /\ (exists res,
        calls (snd (otPlatRadioSetPanId (byte_swapped p) w))
        = calls w ++ [driver_set NETOPT_NID (Scalar p) sizeof_uint16_t res])
  /\ (exists res,
        calls (snd (otPlatRadioSetShortAddress (byte_swapped p) w))
        = calls w ++ [driver_set NETOPT_ADDRESS (Scalar p) sizeof_uint16_t res]).
Proof.
  intros Hp Hq. repeat apply conj.
  - intros v res res'.
    unfold otPlatRadioSetPanId, set_panid, bind, ret.
    rewrite !byte_swapped_bits by assumption.
    destruct (call_set_logged NETOPT_NID (Scalar (byte_swapped p))
                sizeof_uint16_t w) as [r1 ->].
    destruct (call_set_logged NETOPT_NID (Scalar (byte_swapped q))
                sizeof_uint16_t w) as [r2 ->].
    cbn [snd logged calls set_dev]. intros E1 E2.
    apply app_inv_head in E1. apply app_inv_head in E2.
    injection E1 as E1 _. injection E2 as E2 _.
    rewrite <- (byte_swapped_involutive p Hp), <- (byte_swapped_involutive q Hq).
    congruence.
  - unfold otPlatRadioSetPanId, set_panid, bind, ret.
    rewrite byte_swapped_bits by (apply byte_swapped_range; assumption).
    rewrite byte_swapped_involutive by assumption.
    destruct (call_set_logged NETOPT_NID (Scalar p) sizeof_uint16_t w) as [r ->].
    exists r. reflexivity.
  - unfold otPlatRadioSetShortAddress, set_addr, bind, ret.
    rewrite byte_swapped_bits by (apply byte_swapped_range; assumption).
    rewrite byte_swapped_involutive by assumption.
    destruct (call_set_logged NETOPT_ADDRESS (Scalar p) sizeof_uint16_t w) as [r ->].
    exists r. reflexivity.
Qed.

Lemma reversed_addr_firstn (a : list Byte.byte) :
  (IEEE802154_LONG_ADDRESS_LEN <= length a)%nat ->
  reversed_addr a = rev (firstn IEEE802154_LONG_ADDRESS_LEN a).
Proof.
  intros H. unfold IEEE802154_LONG_ADDRESS_LEN in H.
  do 8 (destruct a as [| ? a]; [cbn in H; lia |]).
  reflexivity.
Qed.

(** X8.  [otPlatRadioSetExtendedAddress] uses the first eight octets of its
    argument and nothing after them: the device receives exactly those eight,
    last one first, so reversing what the device received gives them back. *)
Theorem extended_address_first_eight (a : list Byte.byte) (w : radio_t D) :
  (IEEE802154_LONG_ADDRESS_LEN <= length a)%nat ->
  exists sent res,
    calls (snd (otPlatRadioSetExtendedAddress a w))
    = calls w ++ [driver_set NETOPT_ADDRESS_LONG (Octets sent) sizeof_uint64_t res]
    /\ length sent = IEEE802154_LONG_ADDRESS_LEN
    /\ rev sent = firstn IEEE802154_LONG_ADDRESS_LEN a.
Proof.
  intros Hlen.
  unfold otPlatRadioSetExtendedAddress, set_long_addr, bind, ret.
  destruct (call_set_logged NETOPT_ADDRESS_LONG (Octets (reversed_addr a))
              sizeof_uint64_t w) as [res ->].
  exists (reversed_addr a), res. repeat split.
  rewrite (reversed_addr_firstn a Hlen). apply rev_involutive.
Qed.

(** *** The state machine on a driver that stores what it is given *)

Section StoringDriver.

(** Asking the device for a property leaves the device as it was. *)
Hypothesis get_readonly :
  forall opt max_len d, snd (drv_get opt max_len d) = d.

(** A property reads back as the value last set. *)
Hypothesis get_set_same :
  forall opt v len max_len d,
    snd (fst (drv_get opt max_len (snd (drv_set opt v len d)))) = v.

(** Setting a property leaves the other properties as they were. *)
Hypothesis get_set_other :
  forall opt opt' v len max_len d,
    opt <> opt' ->
    snd (fst (drv_get opt max_len (snd (drv_set opt' v len d))))
    = snd (fst (drv_get opt max_len d)).

Lemma state_after_set (v len : Z) (d : D) :
  device_state (snd (drv_set NETOPT_STATE (Scalar v) len d)) = to_int v.
Proof. unfold device_state. rewrite get_set_same. reflexivity. Qed.

Lemma state_after_other_set (opt : netopt_t) (v : optval) (len : Z) (d : D) :
  opt <> NETOPT_STATE ->
  device_state (snd (drv_set opt v len d)) = device_state d.
Proof.
  intros Hopt. unfold device_state. rewrite get_set_other by congruence.
  reflexivity.
Qed.

Lemma busy_of_state (d : D) (s : Z) :
  device_state d = s ->
  s <> NETOPT_STATE_TX -> s <> NETOPT_STATE_RX ->
  device_busy d = false.
Proof.
  intros Hs Htx Hrx. unfold device_busy. rewrite Hs.
  apply orb_false_iff. split; apply Z.eqb_neq; assumption.
Qed.

Lemma is_enabled_readonly (w : radio_t D) :
  exists q,
    is_state_query q = true
    /\ otPlatRadioIsEnabled w
       = (negb (device_state (_dev w) =? NETOPT_STATE_OFF), logged [q] w).
Proof.
  unfold otPlatRadioIsEnabled, bind, ret.
  destruct (get_state_readonly get_readonly w) as (q & Hq & ->).
  exists q. split; [exact Hq | reflexivity].
Qed.

(** What the four guarded commands do once the device is known not to be
    busy, as far as later commands can tell. *)
Lemma enable_when_free (w : radio_t D) :
  device_busy (_dev w) = false ->
  let w' := snd (otPlatRadioEnable w) in
  fst (otPlatRadioEnable w) = kThreadError_None
  /\ device_state (_dev w') = NETOPT_STATE_SLEEP
  /\ sTransmitFrame w' = sTransmitFrame w
  /\ exists cs, calls w' = calls w ++ cs.
Proof.
  intros Hfree. cbv zeta. unfold otPlatRadioEnable, bind.
  destruct (is_busy_readonly get_readonly w) as (qs & Hqs & ->).
  rewrite Hfree.
  destruct (set_state_stored NETOPT_STATE_SLEEP (logged qs w)) as [res ->].
  cbn [fst snd ret logged _dev set_dev calls sTransmitFrame].
  repeat split.
  - apply state_after_set.
  - eexists. rewrite <- app_assoc. reflexivity.
Qed.

Lemma disable_when_free (w : radio_t D) :
  device_busy (_dev w) = false ->
  let w' := snd (otPlatRadioDisable w) in
  fst (otPlatRadioDisable w) = kThreadError_None
  /\ device_state (_dev w') = NETOPT_STATE_OFF
  /\ sTransmitFrame w' = sTransmitFrame w
  /\ exists qs res,
       calls w' = calls w ++ qs
                  ++ [driver_set NETOPT_STATE (Scalar NETOPT_STATE_OFF)
                        sizeof_enum res]
       /\ forallb is_state_query qs = true.
Proof.
  intros Hfree. cbv zeta. unfold otPlatRadioDisable, bind.
  destruct (is_busy_readonly get_readonly w) as (qs & Hqs & ->).
  rewrite Hfree.
  destruct (set_state_stored NETOPT_STATE_OFF (logged qs w)) as [res ->].
  cbn [fst snd ret logged _dev set_dev calls sTransmitFrame].
  repeat split.
  - apply state_after_set.
  - exists qs, res. rewrite <- app_assoc. split; [reflexivity | exact Hqs].
Qed.

Lemma receive_when_free (aChannel : Z) (w : radio_t D) :
  device_busy (_dev w) = false ->
  let w' := snd (otPlatRadioReceive fields aChannel w) in
  fst (otPlatRadioReceive fields aChannel w) = kThreadError_None
  /\ device_state (_dev w') = NETOPT_STATE_IDLE
  /\ sTransmitFrame w' = sTransmitFrame w
  /\ sReceiveFrame w'
     = mk_RadioPacket (mPsdu (sReceiveFrame w)) (mLength (sReceiveFrame w))
         (conv_mChannel fields aChannel) (mPower (sReceiveFrame w))
  /\ to_uint16 (as_scalar (snd (fst (drv_get NETOPT_CHANNEL sizeof_uint16_t (_dev w')))))
     = to_uint16 aChannel
  /\ exists qs res_channel res_state,
       calls w' = calls w ++ qs
                  ++ [driver_set NETOPT_CHANNEL (Scalar (to_uint16 aChannel))
                        sizeof_uint16_t res_channel;
                      driver_set NETOPT_STATE (Scalar NETOPT_STATE_IDLE)
                        sizeof_enum res_state]
       /\ forallb is_state_query qs = true.
Proof.
  intros Hfree. cbv zeta. unfold otPlatRadioReceive, bind.
  destruct (is_busy_readonly get_readonly w) as (qs & Hqs & ->).
  rewrite Hfree. unfold set_channel.
  destruct (call_set_logged NETOPT_CHANNEL (Scalar (to_uint16 aChannel))
              sizeof_uint16_t (logged qs w)) as [rc ->].
  unfold modify.
  match goal with
  | |- context [set_state NETOPT_STATE_IDLE ?w2] =>
      destruct (set_state_stored NETOPT_STATE_IDLE w2) as [rs ->]
  end.
  cbn [fst snd ret logged _dev set_dev calls sTransmitFrame sReceiveFrame
       set_sReceiveFrame with_mChannel].
  repeat split.
  - apply state_after_set.
  - rewrite get_set_other by discriminate. rewrite get_set_same. cbn [as_scalar].
    unfold to_uint16. apply Z.mod_mod. lia.
  - exists qs, rc, rs. repeat rewrite <- app_assoc. split; [reflexivity | exact Hqs].
Qed.

Lemma guarded_when_busy {A} (x : A) (body : M A) (w : radio_t D) :
  device_busy (_dev w) = true ->
  exists qs,
    forallb is_state_query qs = true
    /\ bind is_busy (fun busy => if busy then ret x else body) w
       = (x, logged qs w).
Proof.
  intros Hbusy. unfold bind.
  destruct (is_busy_readonly get_readonly w) as (qs & Hqs & ->).
  rewrite Hbusy. exists qs. split; [exact Hqs | reflexivity].
Qed.

Lemma sleep_when_free (w : radio_t D) :
  device_busy (_dev w) = false ->
  fst (otPlatRadioSleep w) = kThreadError_None
  /\ device_state (_dev (snd (otPlatRadioSleep w))) = NETOPT_STATE_OFF.
Proof.
  intros Hfree. unfold otPlatRadioSleep, bind.
  destruct (is_busy_readonly get_readonly w) as (qs & Hqs & ->).
  rewrite Hfree.
  destruct (set_state_stored NETOPT_STATE_SLEEP (logged qs w)) as [res ->].
  match goal with
  | |- context [otPlatRadioDisable ?w1] =>
      assert (Hsleep : device_busy (_dev w1) = false)
        by (apply busy_of_state with (s := NETOPT_STATE_SLEEP);
            [apply state_after_set | discriminate | discriminate]);
      destruct (disable_when_free w1 Hsleep) as (Hret & Hoff & _)
  end.
  split; assumption.
Qed.



(** X10.  When the device is neither transmitting nor receiving,
    [otPlatRadioDisable] sets the state OFF and returns None, and the device
    then reports OFF.  When the device is busy the call returns Busy, leaves
    the device as it was and only asks for the state. *)
Theorem disable_turns_off_unless_busy (w : radio_t D) :
  let w' := snd (otPlatRadioDisable w) in
  (device_busy (_dev w) = false ->
     fst (otPlatRadioDisable w) = kThreadError_None
     /\ device_state (_dev w') = NETOPT_STATE_OFF
     /\ exists qs res,
          calls w' = calls w ++ qs
                     ++ [driver_set NETOPT_STATE (Scalar NETOPT_STATE_OFF)
                           sizeof_enum res]
          /\ forallb is_state_query qs = true)
  /\ (device_busy (_dev w) = true ->
        fst (otPlatRadioDisable w) = kThreadError_Busy
        /\ _dev w' = _dev w
        /\ exists qs, calls w' = calls w ++ qs /\ forallb is_state_query qs = true).
Proof.
  cbv zeta. split; intros Hbusy.
  - destruct (disable_when_free w Hbusy) as (Hret & Hoff & _ & Hcalls).
    repeat split; assumption.
  - unfold otPlatRadioDisable.
    destruct (guarded_when_busy kThreadError_Busy
                (bind (set_state NETOPT_STATE_OFF) (fun _ => ret kThreadError_None))
                w Hbusy) as (qs & Hqs & ->).
    cbn. repeat split. exists qs. split; [reflexivity | exact Hqs].
Qed.

Lemma is_enabled_value (w : radio_t D) :
  fst (otPlatRadioIsEnabled w) = negb (device_state (_dev w) =? NETOPT_STATE_OFF).
Proof.
  destruct (is_enabled_readonly w) as (q & _ & ->). reflexivity.
Qed.

Lemma busy_not_off (d : D) :
  device_busy d = true -> (device_state d =? NETOPT_STATE_OFF) = false.
Proof.
  unfold device_busy. intros H. apply orb_true_iff in H.
  destruct H as [H | H]; apply Z.eqb_eq in H; rewrite H; reflexivity.
Qed.

(** X11.  [otPlatRadioIsEnabled] agrees with the command before it: it
    answers true after [otPlatRadioEnable] whatever the state was, true after
    an [otPlatRadioReceive] that returned None, and false after an
    [otPlatRadioDisable] or an [otPlatRadioSleep] that returned None. *)
Theorem is_enabled_follows_commands (aChannel : Z) (w : radio_t D) :
  fst (otPlatRadioIsEnabled (snd (otPlatRadioEnable w))) = true
  /\ (fst (otPlatRadioReceive fields aChannel w) = kThreadError_None ->
      fst (otPlatRadioIsEnabled (snd (otPlatRadioReceive fields aChannel w))) = true)
  /\ (fst (otPlatRadioDisable w) = kThreadError_None ->
      fst (otPlatRadioIsEnabled (snd (otPlatRadioDisable w))) = false)
  /\ (fst (otPlatRadioSleep w) = kThreadError_None ->
      fst (otPlatRadioIsEnabled (snd (otPlatRadioSleep w))) = false).
Proof.
  rewrite !is_enabled_value.
  destruct (device_busy (_dev w)) eqn:Hbusy.
  - repeat apply conj.
    + unfold otPlatRadioEnable.
      destruct (guarded_when_busy kThreadError_None
                  (bind (set_state NETOPT_STATE_SLEEP) (fun _ => ret kThreadError_None))
                  w Hbusy) as (qs & _ & ->).
      cbn [snd logged _dev]. rewrite (busy_not_off _ Hbusy). reflexivity.
    + unfold otPlatRadioReceive.
      destruct (guarded_when_busy kThreadError_Busy
                  (bind (set_channel aChannel) (fun _ =>
                   bind (modify (fun w0 => set_sReceiveFrame
                                   (with_mChannel fields aChannel (sReceiveFrame w0)) w0))
                     (fun _ => bind (set_state NETOPT_STATE_IDLE)
                                 (fun _ => ret kThreadError_None))))
                  w Hbusy) as (qs & _ & ->).
      discriminate.
    + unfold otPlatRadioDisable.
      destruct (guarded_when_busy kThreadError_Busy
                  (bind (set_state NETOPT_STATE_OFF) (fun _ => ret kThreadError_None))
                  w Hbusy) as (qs & _ & ->).
      discriminate.
    + unfold otPlatRadioSleep.
      destruct (guarded_when_busy kThreadError_Busy
                  (bind (set_state NETOPT_STATE_SLEEP) (fun _ => otPlatRadioDisable))
                  w Hbusy) as (qs & _ & ->).
      discriminate.
  - destruct (enable_when_free w Hbusy) as (_ & He & _).
    destruct (receive_when_free aChannel w Hbusy) as (_ & Hr & _).
    destruct (disable_when_free w Hbusy) as (_ & Hd & _).
    destruct (sleep_when_free w Hbusy) as (_ & Hs).
    rewrite He, Hr, Hd, Hs. repeat split.
Qed.

Lemma transmit_when_free (aPacket : packet_ptr) (w : radio_t D) :
  device_busy (_dev w) = false ->
  fst (otPlatRadioTransmit NDEBUG aPacket w) = Returned kThreadError_None
  /\ exists cs res,
       calls (snd (otPlatRadioTransmit NDEBUG aPacket w))
       = calls w ++ cs
         ++ [driver_send [mk_iovec (mPsdu (sTransmitFrame w))
                            (mLength (sTransmitFrame w))] res].
Proof.
  intros Hfree. unfold otPlatRadioTransmit, bind.
  destruct (is_rx_or_tx_readonly get_readonly w) as (qs & Hqs & ->).
  rewrite Hfree. unfold read, set_channel, set_power, call_set, call_send, ret.
  cbn [sTransmitFrame logged _dev set_dev record].
  destruct (drv_set NETOPT_CHANNEL _ _ (_dev w)) as [rc d1].
  cbn [sTransmitFrame logged _dev set_dev record].
  destruct (drv_set NETOPT_TX_POWER _ _ d1) as [rp d2].
  cbn [sTransmitFrame logged _dev set_dev record].
  destruct (drv_send _ d2) as [rs d3].
  cbn [fst snd calls record set_dev logged].
  split; [reflexivity |].
  eexists (qs ++ [_; _]), (to_int rs).
  repeat rewrite <- app_assoc. cbn [app]. reflexivity.
Qed.

(** X12.  From any state in which the device is not busy, the sequence
    Enable, Receive on a channel, Transmit succeeds at every step, the frame
    handed to the driver is the outbound frame with its length, and a
    TX_COMPLETE event then reports that frame to OpenThread with success and
    no frame pending. *)
Theorem enable_receive_transmit (aChannel : Z) (aPacket : packet_ptr)
    (w : radio_t D) :
  device_busy (_dev w) = false ->
  let w1 := snd (otPlatRadioEnable w) in
  let w2 := snd (otPlatRadioReceive fields aChannel w1) in
  let w3 := snd (otPlatRadioTransmit NDEBUG aPacket w2) in
  let w4 := snd (sent_pkt NETDEV2_EVENT_TX_COMPLETE w3) in
  fst (otPlatRadioEnable w) = kThreadError_None
  /\ fst (otPlatRadioReceive fields aChannel w1) = kThreadError_None
  /\ fst (otPlatRadioTransmit NDEBUG aPacket w2) = Returned kThreadError_None
  /\ exists cs res,
       calls w4
       = calls w ++ cs
         ++ [driver_send [mk_iovec (mPsdu (sTransmitFrame w))
                            (mLength (sTransmitFrame w))] res;
             otPlatRadioTransmitDone addr_sTransmitFrame false kThreadError_None].
Proof.
  intros Hfree. cbv zeta.
  destruct (enable_when_free w Hfree) as (He & Hs1 & Ht1 & cs1 & Hc1).
  set (w1 := snd (otPlatRadioEnable w)) in *.
  assert (Hfree1 : device_busy (_dev w1) = false)
    by (apply busy_of_state with (s := NETOPT_STATE_SLEEP);
        [exact Hs1 | discriminate | discriminate]).
  destruct (receive_when_free aChannel w1 Hfree1)
    as (Hr & Hs2 & Ht2 & _ & _ & qs2 & rc & rs & Hc2 & _).
  set (w2 := snd (otPlatRadioReceive fields aChannel w1)) in *.
  assert (Hfree2 : device_busy (_dev w2) = false)
    by (apply busy_of_state with (s := NETOPT_STATE_IDLE);
        [exact Hs2 | discriminate | discriminate]).
  destruct (transmit_when_free aPacket w2 Hfree2) as (Ht & cs3 & res & Hc3).
  repeat split; try assumption.
  exists (cs1 ++ (qs2 ++ [driver_set NETOPT_CHANNEL (Scalar (to_uint16 aChannel))
                            sizeof_uint16_t rc;
                          driver_set NETOPT_STATE (Scalar NETOPT_STATE_IDLE)
                            sizeof_enum rs]) ++ cs3), res.
  cbn [sent_pkt upcall modify snd record calls].
  rewrite Hc3, Hc2, Hc1, Ht2, Ht1.
  repeat rewrite <- app_assoc. reflexivity.
Qed.

(** X13.  What [otPlatRadioSetPromiscuous] sets is what
    [otPlatRadioGetPromiscuous] answers next. *)
Theorem promiscuous_round_trip (aEnable : bool) (w : radio_t D) :
  fst (otPlatRadioGetPromiscuous (snd (otPlatRadioSetPromiscuous aEnable w)))
  = aEnable.
Proof.
  unfold otPlatRadioSetPromiscuous, set_promiscuous, bind, ret.
  match goal with
  | |- context [call_set ?o ?v ?n w] =>
      destruct (call_set_logged o v n w) as [res ->]
  end.
  unfold otPlatRadioGetPromiscuous, is_promiscuous, bind, ret, call_get.
  cbn [fst snd logged _dev set_dev].
  match goal with
  | |- context [drv_get ?o ?n (snd (drv_set ?o ?v ?m ?d))] =>
      pose proof (get_set_same o v m n d) as E;
      destruct (drv_get o n (snd (drv_set o v m d))) as [[r v'] d']
  end.
  cbn [fst snd] in *. subst v'. destruct aEnable; reflexivity.
Qed.

Lemma to_int16_small (z : Z) : - 2 ^ 15 <= z < 2 ^ 15 -> to_int16 z = z.
Proof. intros H. unfold to_int16. rewrite Z.mod_small; lia. Qed.

(** X14.  A power in the range of [int8_t] given to
    [otPlatRadioSetDefaultTxPower] is the power [get_power] reads next. *)
Theorem default_tx_power_round_trip (aPower : Z) (w : radio_t D) :
  - 2 ^ 7 <= aPower < 2 ^ 7 ->
  fst (get_power (snd (otPlatRadioSetDefaultTxPower aPower w))) = aPower.
Proof.
  intros Hp.
  unfold otPlatRadioSetDefaultTxPower, set_power, bind, ret.
  rewrite to_int16_small by lia.
  destruct (call_set_logged NETOPT_TX_POWER (Scalar aPower) sizeof_int16_t w)
    as [res ->].
  unfold get_power, bind, ret, call_get.
  cbn [fst snd logged _dev set_dev].
  match goal with
  | |- context [drv_get ?o ?n (snd (drv_set ?o ?v ?m ?d))] =>
      pose proof (get_set_same o v m n d) as E;
      destruct (drv_get o n (snd (drv_set o v m d))) as [[r v'] d']
  end.
  cbn [fst snd] in *. subst v'. cbn [as_scalar]. apply to_int16_small. lia.
Qed.

End StoringDriver.

End RadioRuns.

(** *** The storing device obeys the storing laws *)

Lemma mock_get_set_same (opt : netopt_t) (v : optval) (len max_len : Z)
    (d : mock_dev) :
  snd (fst (drv_get opt max_len (snd (drv_set opt v len d)))) = v.
Proof. destruct opt; reflexivity. Qed.

Lemma mock_get_set_other (opt opt' : netopt_t) (v : optval) (len max_len : Z)
    (d : mock_dev) :
  opt <> opt' ->
  snd (fst (drv_get opt max_len (snd (drv_set opt' v len d))))
  = snd (fst (drv_get opt max_len d)).
Proof. intros H. destruct opt, opt'; try reflexivity; congruence. Qed.

(** *** The further properties at concrete inputs *)

Lemma only_transmit_sends_witness :
  exists cs,
    calls (snd (run_entries false openthread_fields
                  [api_Enable; api_Receive 11; event_recv_pkt; api_Sleep]
                  (mock_world NETOPT_STATE_OFF)))
    = calls (mock_world NETOPT_STATE_OFF) ++ cs
    /\ existsb is_send cs = false.
Proof.
  exact (only_transmit_sends false openthread_fields
           [api_Enable; api_Receive 11; event_recv_pkt; api_Sleep]
           (mock_world NETOPT_STATE_OFF) eq_refl).
Defined.

Lemma commands_never_call_back_witness :
  exists cs,
    calls (snd (run_entries false openthread_fields
                  [api_Enable; api_Receive 11; api_Transmit addr_sTransmitFrame]
                  (mock_world NETOPT_STATE_OFF)))
    = calls (mock_world NETOPT_STATE_OFF) ++ cs
    /\ existsb (fun c => is_upcall c || is_recv c) cs = false.
Proof.
  exact (commands_never_call_back false openthread_fields
           [api_Enable; api_Receive 11; api_Transmit addr_sTransmitFrame]
           (mock_world NETOPT_STATE_OFF) eq_refl).
Defined.

(** The driver answers the length query with -5. *)
Lemma recv_pkt_negative_length_witness :
  to_int (fst (fst (drv_recv recv_NULL 0 (_dev (mock_world_rx (-5) sample_frame))))) < 0
  /\ sReceiveFrame (snd (recv_pkt openthread_fields (mock_world_rx (-5) sample_frame)))
     = sReceiveFrame (mock_world_rx (-5) sample_frame).
Proof.
  assert (H : to_int (fst (fst (drv_recv recv_NULL 0
                                  (_dev (mock_world_rx (-5) sample_frame))))) < 0)
    by (vm_compute; reflexivity).
  split; [exact H |].
  exact (proj1 (proj2 (recv_pkt_negative_length openthread_fields
                         (mock_world_rx (-5) sample_frame) H))).
Defined.


Lemma panid_swap_is_one_to_one_witness :
  exists res,
    calls (snd (otPlatRadioSetPanId (byte_swapped 0x1234)
                  (mock_world NETOPT_STATE_IDLE)))
    = calls (mock_world NETOPT_STATE_IDLE)
      ++ [driver_set NETOPT_NID (Scalar 0x1234) sizeof_uint16_t res].
Proof.
  assert (Hp : 0 <= 0x1234 < 2 ^ 16) by (split; [lia | reflexivity]).
  exact (proj1 (proj2 (panid_swap_is_one_to_one 0x1234 0x1234
                         (mock_world NETOPT_STATE_IDLE) Hp Hp))).
Defined.

Lemma extended_address_first_eight_witness :
  exists sent res,
    calls (snd (otPlatRadioSetExtendedAddress (sample_addr ++ sample_frame)
                  (mock_world NETOPT_STATE_IDLE)))
    = calls (mock_world NETOPT_STATE_IDLE)
      ++ [driver_set NETOPT_ADDRESS_LONG (Octets sent) sizeof_uint64_t res]
    /\ length sent = IEEE802154_LONG_ADDRESS_LEN
    /\ rev sent = firstn IEEE802154_LONG_ADDRESS_LEN (sample_addr ++ sample_frame).
Proof.
  apply (extended_address_first_eight (sample_addr ++ sample_frame)
           (mock_world NETOPT_STATE_IDLE)).
  vm_compute. lia.
Defined.


Lemma disable_turns_off_unless_busy_witness :
  device_state (_dev (snd (otPlatRadioDisable (mock_world NETOPT_STATE_IDLE))))
  = NETOPT_STATE_OFF
  /\ fst (otPlatRadioDisable (mock_world NETOPT_STATE_RX)) = kThreadError_Busy.
Proof.
  split.
  - exact (proj1 (proj2 (proj1 (disable_turns_off_unless_busy
             mock_get_readonly mock_get_set_same
             (mock_world NETOPT_STATE_IDLE)) eq_refl))).
  - exact (proj1 (proj2 (disable_turns_off_unless_busy
             mock_get_readonly mock_get_set_same
             (mock_world NETOPT_STATE_RX)) eq_refl)).
Defined.

Lemma is_enabled_follows_commands_witness :
  fst (otPlatRadioIsEnabled (snd (otPlatRadioEnable (mock_world NETOPT_STATE_OFF))))
  = true
  /\ fst (otPlatRadioIsEnabled (snd (otPlatRadioSleep (mock_world NETOPT_STATE_IDLE))))
     = false.
Proof.
  split.
  - exact (proj1 (is_enabled_follows_commands openthread_fields
             mock_get_readonly mock_get_set_same mock_get_set_other 11
             (mock_world NETOPT_STATE_OFF))).
  - exact (proj2 (proj2 (proj2 (is_enabled_follows_commands openthread_fields
             mock_get_readonly mock_get_set_same mock_get_set_other 11
             (mock_world NETOPT_STATE_IDLE)))) eq_refl).
Defined.

Lemma enable_receive_transmit_witness :
  fst (otPlatRadioTransmit false addr_sTransmitFrame
         (snd (otPlatRadioReceive openthread_fields 11
                 (snd (otPlatRadioEnable (mock_world NETOPT_STATE_OFF))))))
  = Returned kThreadError_None.
Proof.
  exact (proj1 (proj2 (proj2 (enable_receive_transmit false openthread_fields
           mock_get_readonly mock_get_set_same mock_get_set_other 11
           addr_sTransmitFrame (mock_world NETOPT_STATE_OFF) eq_refl)))).
Defined.

Lemma promiscuous_round_trip_witness :
  fst (otPlatRadioGetPromiscuous
         (snd (otPlatRadioSetPromiscuous true (mock_world NETOPT_STATE_IDLE))))
  = true.
Proof.
  exact (promiscuous_round_trip mock_get_set_same true (mock_world NETOPT_STATE_IDLE)).
Defined.

Lemma default_tx_power_round_trip_witness :
  fst (get_power (snd (otPlatRadioSetDefaultTxPower (-17)
                         (mock_world NETOPT_STATE_IDLE))))
  = -17.
Proof.
  apply (default_tx_power_round_trip mock_get_set_same (-17)
           (mock_world NETOPT_STATE_IDLE)).
  split; [vm_compute; discriminate | reflexivity].
Defined.

(** ** Further properties of the alarm *)

Lemma alarms_fired_app (l l' : list Alarm.upcall_t) :
  Alarm.alarms_fired (l ++ l') = (Alarm.alarms_fired l + Alarm.alarms_fired l')%nat.
Proof. unfold Alarm.alarms_fired. rewrite filter_app, length_app. reflexivity. Qed.

Lemma start_at_armed (aT0 aDt : Z) (a : Alarm.alarm_t) :
  0 < aDt < 4294968 ->
  Alarm.otPlatAlarmMilliStartAt aT0 aDt a
  = Alarm.set_ot_timer (Some (Alarm.clock_us a + aDt * 1000))
      (Alarm.set_ot_alarm_msg
         (Alarm.mk_msg Alarm.OPENTHREAD_XTIMER_MSG_TYPE_EVENT) a).
Proof.
  intros Hdt. unfold Alarm.otPlatAlarmMilliStartAt, Alarm.US_PER_MS.
  rewrite (to_uint32_small aDt) by lia.
  replace (aDt =? 0) with false by (symmetry; apply Z.eqb_neq; lia).
  unfold Alarm.xtimer_set_msg.
  rewrite to_uint32_to_int, to_uint32_idem, to_uint32_small by lia.
  reflexivity.
Qed.

(** X15.  For a delay between 1 and 4294967 ms the timer is armed exactly
    [aDt] * 1000 microseconds from now.  From 4294968 ms on, the product
    computed in 32 bits wraps, and the timer is armed earlier than asked. *)
Theorem start_at_delay_in_microseconds (aT0 aDt : Z) (a : Alarm.alarm_t) :
  (0 < aDt < 4294968 ->
     Alarm.deadline_us (Alarm.otPlatAlarmMilliStartAt aT0 aDt a)
     = Some (Alarm.clock_us a + aDt * 1000))
  /\ (4294968 <= aDt < 2 ^ 32 ->
      exists deadline,
        Alarm.deadline_us (Alarm.otPlatAlarmMilliStartAt aT0 aDt a) = Some deadline
        /\ deadline < Alarm.clock_us a + aDt * 1000).
Proof.
  split; intros Hdt.
  - rewrite start_at_armed by exact Hdt. reflexivity.
  - unfold Alarm.otPlatAlarmMilliStartAt, Alarm.US_PER_MS.
    rewrite (to_uint32_small aDt) by lia.
    replace (aDt =? 0) with false by (symmetry; apply Z.eqb_neq; lia).
    unfold Alarm.xtimer_set_msg, Alarm.deadline_us.
    cbn [Alarm.ot_timer Alarm.set_ot_timer Alarm.clock_us Alarm.set_ot_alarm_msg].
    rewrite to_uint32_to_int, to_uint32_idem.
    eexists. split; [reflexivity |].
    unfold to_uint32.
    pose proof (Z.mod_pos_bound (aDt * 1000) (2 ^ 32) ltac:(lia)). lia.
Qed.

(** X16.  [otPlatAlarmMilliStop] after a start with a nonzero delay disarms
    the timer, and however far time advances no notification is delivered.
    After a start with delay zero the notification is already in the queue
    and stopping does not take it back.  Stopping twice is stopping once. *)
Theorem stop_cancels_scheduled_alarm (aT0 aDt t : Z) (a : Alarm.alarm_t) :
  (to_uint32 aDt <> 0 ->
     let stopped := Alarm.otPlatAlarmMilliStop
                      (Alarm.otPlatAlarmMilliStartAt aT0 aDt a) in
     Alarm.ot_timer stopped = None
     /\ Alarm.queue (Alarm.xtimer_advance t stopped) = Alarm.queue a)
  /\ (to_uint32 aDt = 0 ->
      (length (Alarm.queue a) < Alarm.OPENTHREAD_QUEUE_LEN)%nat ->
      Alarm.queue (Alarm.otPlatAlarmMilliStop
                     (Alarm.otPlatAlarmMilliStartAt aT0 aDt a))
      = Alarm.queue a ++ [Alarm.mk_msg Alarm.OPENTHREAD_XTIMER_MSG_TYPE_EVENT])
  /\ Alarm.otPlatAlarmMilliStop (Alarm.otPlatAlarmMilliStop a)
     = Alarm.otPlatAlarmMilliStop a.
Proof.
  repeat apply conj.
  - intros Hdt. apply Z.eqb_neq in Hdt. cbv zeta.
    unfold Alarm.otPlatAlarmMilliStartAt. rewrite Hdt.
    split; reflexivity.
  - intros Hdt Hroom. apply Nat.ltb_lt in Hroom.
    unfold Alarm.otPlatAlarmMilliStartAt. rewrite Hdt.
    change (0 =? 0) with true. cbv iota.
    unfold Alarm.msg_send.
    cbn [Alarm.queue Alarm.set_ot_alarm_msg Alarm.ot_alarm_msg Alarm._pid].
    rewrite Hroom.
    unfold Alarm.otPlatAlarmMilliStop, Alarm.xtimer_remove.
    cbn [Alarm.ot_timer Alarm.set_queue Alarm.set_ot_alarm_msg].
    destruct (Alarm.ot_timer a); reflexivity.
  - unfold Alarm.otPlatAlarmMilliStop, Alarm.xtimer_remove.
    destruct (Alarm.ot_timer a) eqn:E;
      cbn [Alarm.ot_timer Alarm.set_ot_timer]; [| rewrite E]; reflexivity.
Qed.

Lemma timer_thread_loop_invariant (pending : list bool) :
  forall (a : Alarm.alarm_t) (ups : list Alarm.upcall_t),
    let r := Alarm.timer_thread_loop pending a ups in
    exists taken,
      Alarm.queue a = taken ++ Alarm.queue (snd (fst r))
      /\ Alarm.alarms_fired (snd r)
         = (Alarm.alarms_fired ups + Alarm.alarm_events taken)%nat
      /\ Alarm.ot_timer (snd (fst r)) = Alarm.ot_timer a
      /\ Alarm.clock_us (snd (fst r)) = Alarm.clock_us a.
Proof.
  induction pending as [| p rest IH]; intros a ups; cbv zeta.
  - exists []. cbn [Alarm.timer_thread_loop fst snd app].
    unfold Alarm.alarm_events. cbn [filter length]. repeat split. lia.
  - cbn [Alarm.timer_thread_loop].
    assert (Hups : Alarm.alarms_fired (ups ++ [Alarm.otTaskletsProcess])
                   = Alarm.alarms_fired ups)
      by (rewrite alarms_fired_app; cbn; lia).
    destruct p.
    + destruct (IH a (ups ++ [Alarm.otTaskletsProcess])) as (taken & Hq & Hf & Ht & Hc).
      exists taken. rewrite Hf, Hups. repeat split; assumption.
    + unfold Alarm.msg_receive.
      destruct (Alarm.queue a) as [| m q] eqn:Eq.
      * exists []. cbn [fst snd app]. rewrite Eq, Hups. repeat split. cbn. lia.
      * destruct (Alarm.msg_type m =? Alarm.OPENTHREAD_XTIMER_MSG_TYPE_EVENT) eqn:Em.
        -- destruct (IH (Alarm.set_queue q a)
                       ((ups ++ [Alarm.otTaskletsProcess])
                          ++ [Alarm.otPlatAlarmMilliFired]))
             as (taken & Hq & Hf & Ht & Hc).
           exists (m :: taken). cbn [Alarm.queue Alarm.set_queue] in Hq.
           rewrite Hf, alarms_fired_app, Hups. cbn [app].
           unfold Alarm.alarm_events at 2. cbn [filter]. rewrite Em.
           repeat split; [f_equal; exact Hq | cbn; unfold Alarm.alarm_events; lia
                         | exact Ht | exact Hc].
        -- destruct (IH (Alarm.set_queue q a) (ups ++ [Alarm.otTaskletsProcess]))
             as (taken & Hq & Hf & Ht & Hc).
           exists (m :: taken). cbn [Alarm.queue Alarm.set_queue] in Hq.
           rewrite Hf, Hups. cbn [app].
           unfold Alarm.alarm_events at 2. cbn [filter]. rewrite Em.
           repeat split; [f_equal; exact Hq | exact Ht | exact Hc].
Qed.

(** X17.  However many rounds the alarm thread makes and whatever the
    tasklet queue answers, it takes messages from the front of its queue in
    order, calls [otPlatAlarmMilliFired] exactly once for each alarm event it
    took and for nothing else, and touches neither the timer nor the clock. *)
Theorem timer_thread_serves_in_order (pending : list bool) (a : Alarm.alarm_t)
    (ups : list Alarm.upcall_t) :
  exists taken,
    Alarm.queue a
    = taken ++ Alarm.queue (snd (fst (Alarm.timer_thread_loop pending a ups)))
    /\ Alarm.alarms_fired (snd (Alarm.timer_thread_loop pending a ups))
       = (Alarm.alarms_fired ups + Alarm.alarm_events taken)%nat
    /\ Alarm.ot_timer (snd (fst (Alarm.timer_thread_loop pending a ups)))
       = Alarm.ot_timer a.
Proof.
  destruct (timer_thread_loop_invariant pending a ups) as (taken & Hq & Hf & Ht & _).
  exists taken. repeat split; assumption.
Qed.

(** X18.  With no tasklet pending and more rounds than queued messages, the
    alarm thread empties its queue, has called [otPlatAlarmMilliFired] once per
    alarm event that was queued, and ends suspended in [msg_receive]. *)
Theorem timer_thread_drains_queue (pending : list bool) :
  forall (a : Alarm.alarm_t) (ups : list Alarm.upcall_t),
    forallb negb pending = true ->
    (length (Alarm.queue a) < length pending)%nat ->
    let r := Alarm.timer_thread_loop pending a ups in
    fst (fst r) = Alarm.Suspended
    /\ Alarm.queue (snd (fst r)) = []
    /\ Alarm.alarms_fired (snd r)
       = (Alarm.alarms_fired ups + Alarm.alarm_events (Alarm.queue a))%nat.
Proof.
  induction pending as [| p rest IH]; intros a ups Hidle Hlen; cbv zeta.
  - cbn in Hlen. lia.
  - cbn in Hidle. apply andb_true_iff in Hidle. destruct Hidle as [Hp Hrest].
    destruct p; [discriminate |]. cbn [Alarm.timer_thread_loop].
    assert (Hups : Alarm.alarms_fired (ups ++ [Alarm.otTaskletsProcess])
                   = Alarm.alarms_fired ups)
      by (rewrite alarms_fired_app; cbn; lia).
    unfold Alarm.msg_receive.
    destruct (Alarm.queue a) as [| m q] eqn:Eq.
    + cbn [fst snd]. rewrite Eq, Hups. unfold Alarm.alarm_events. cbn.
      repeat split. lia.
    + cbn [length] in Hlen. unfold Alarm.alarm_events. cbn [filter].
      destruct (Alarm.msg_type m =? Alarm.OPENTHREAD_XTIMER_MSG_TYPE_EVENT).
      * destruct (IH (Alarm.set_queue q a)
                    ((ups ++ [Alarm.otTaskletsProcess]) ++ [Alarm.otPlatAlarmMilliFired])
                    Hrest ltac:(cbn; lia)) as (Hs & He & Hf).
        rewrite Hf, alarms_fired_app, Hups. unfold Alarm.alarm_events.
        repeat split; [exact Hs | exact He | cbn; lia].
      * destruct (IH (Alarm.set_queue q a) (ups ++ [Alarm.otTaskletsProcess])
                    Hrest ltac:(cbn; lia)) as (Hs & He & Hf).
        rewrite Hf, Hups. unfold Alarm.alarm_events.
        repeat split; [exact Hs | exact He].
Qed.

(** X19.  An alarm started on an idle thread reaches OpenThread exactly when
    it is due.  With a delay between 1 and 4294967 ms, a round of the thread
    run before the deadline fires nothing and leaves the timer armed; run once
    the deadline has passed it calls [otPlatAlarmMilliFired] once, and the
    timer is disarmed.  With delay zero the very next round fires. *)
Theorem alarm_reaches_openthread (aT0 aDt t : Z) (a : Alarm.alarm_t)
    (ups : list Alarm.upcall_t) :
  Alarm.queue a = [] ->
  (0 < aDt < 4294968 ->
     let started := Alarm.otPlatAlarmMilliStartAt aT0 aDt a in
     (t < Alarm.clock_us a + aDt * 1000 ->
        snd (Alarm.timer_thread_loop [false] (Alarm.xtimer_advance t started) ups)
        = ups ++ [Alarm.otTaskletsProcess]
        /\ Alarm.ot_timer (Alarm.xtimer_advance t started)
           = Some (Alarm.clock_us a + aDt * 1000))
     /\ (Alarm.clock_us a + aDt * 1000 <= t ->
         snd (Alarm.timer_thread_loop [false; false]
                (Alarm.xtimer_advance t started) ups)
         = ups ++ [Alarm.otTaskletsProcess; Alarm.otPlatAlarmMilliFired;
                   Alarm.otTaskletsProcess]
         /\ Alarm.ot_timer (Alarm.xtimer_advance t started) = None))
  /\ snd (Alarm.timer_thread_loop [false; false]
            (Alarm.otPlatAlarmMilliStartAt aT0 0 a) ups)
     = ups ++ [Alarm.otTaskletsProcess; Alarm.otPlatAlarmMilliFired;
               Alarm.otTaskletsProcess].
Proof.
  intros Hq. split.
  - intros Hdt. cbv zeta. rewrite start_at_armed by exact Hdt.
    unfold Alarm.xtimer_advance. cbv zeta.
    cbn [Alarm.ot_timer Alarm.set_ot_timer Alarm.set_clock_us Alarm.clock_us
         Alarm.set_ot_alarm_msg Alarm.ot_alarm_msg Alarm._pid Alarm.queue].
    split; intros Ht.
    + replace (Alarm.clock_us a + aDt * 1000 <=? Z.max t (Alarm.clock_us a))
        with false by (symmetry; apply Z.leb_gt; lia).
      unfold Alarm.timer_thread_loop, Alarm.msg_receive.
      cbn [Alarm.queue Alarm.set_ot_timer Alarm.set_clock_us Alarm.set_ot_alarm_msg].
      rewrite Hq. split; reflexivity.
    + replace (Alarm.clock_us a + aDt * 1000 <=? Z.max t (Alarm.clock_us a))
        with true by (symmetry; apply Z.leb_le; lia).
      unfold Alarm.msg_send.
      cbn [Alarm.queue Alarm.set_ot_timer Alarm.ot_timer Alarm.set_clock_us
           Alarm.set_ot_alarm_msg].
      rewrite Hq. cbn. rewrite <- !app_assoc. split; reflexivity.
  - unfold Alarm.otPlatAlarmMilliStartAt. change (to_uint32 0 =? 0) with true.
    cbv iota. unfold Alarm.msg_send.
    cbn [Alarm.queue Alarm.set_ot_alarm_msg Alarm.ot_alarm_msg Alarm._pid].
    rewrite Hq. cbn. rewrite <- !app_assoc. reflexivity.
Qed.

(** X20.  [otPlatAlarmMilliGetNow] is the microsecond counter divided by 1000:
    it never exceeds 4294967, and as long as the counter has not wrapped it
    does not go backward. *)
Theorem get_now_until_wrap (a a' : Alarm.alarm_t) :
  0 <= Alarm.otPlatAlarmMilliGetNow a <= 4294967
  /\ (0 <= Alarm.clock_us a <= Alarm.clock_us a' ->
      Alarm.clock_us a' < 2 ^ 32 ->
      Alarm.otPlatAlarmMilliGetNow a = Alarm.clock_us a / 1000
      /\ Alarm.otPlatAlarmMilliGetNow a <= Alarm.otPlatAlarmMilliGetNow a').
Proof.
  unfold Alarm.otPlatAlarmMilliGetNow, Alarm.xtimer_now_usec, Alarm.US_PER_MS.
  assert (Hq : forall c, 0 <= to_uint32 c / 1000 <= 4294967).
  { intros c. unfold to_uint32.
    pose proof (Z.mod_pos_bound c (2 ^ 32) ltac:(lia)).
    split; [apply Z.div_pos; lia |].
    apply Z.lt_succ_r. apply Z.div_lt_upper_bound; lia. }
  split.
  - rewrite to_uint32_small by (specialize (Hq (Alarm.clock_us a)); lia).
    apply Hq.
  - intros Hle Hwrap.
    rewrite (to_uint32_small (to_uint32 (Alarm.clock_us a) / 1000))
      by (specialize (Hq (Alarm.clock_us a)); lia).
    rewrite (to_uint32_small (to_uint32 (Alarm.clock_us a') / 1000))
      by (specialize (Hq (Alarm.clock_us a')); lia).
    rewrite !to_uint32_small by lia.
    split; [reflexivity | apply Z.div_le_mono; lia].
Qed.

(** *** The further alarm properties at concrete inputs *)

Lemma start_at_delay_in_microseconds_witness :
  Alarm.deadline_us (Alarm.otPlatAlarmMilliStartAt 0 250 (Alarm.idle_at 4000))
  = Some 254000
  /\ exists deadline,
       Alarm.deadline_us (Alarm.otPlatAlarmMilliStartAt 0 4294968 (Alarm.idle_at 4000))
       = Some deadline
       /\ deadline < 4000 + 4294968 * 1000.
Proof.
  split.
  - apply (proj1 (start_at_delay_in_microseconds 0 250 (Alarm.idle_at 4000))).
    split; reflexivity.
  - apply (proj2 (start_at_delay_in_microseconds 0 4294968 (Alarm.idle_at 4000))).
    split; [vm_compute; discriminate | reflexivity].
Defined.

Lemma stop_cancels_scheduled_alarm_witness :
  Alarm.queue (Alarm.xtimer_advance 9000
                 (Alarm.otPlatAlarmMilliStop
                    (Alarm.otPlatAlarmMilliStartAt 0 5 (Alarm.idle_at 0))))
  = []
  /\ Alarm.queue (Alarm.otPlatAlarmMilliStop
                    (Alarm.otPlatAlarmMilliStartAt 0 0 (Alarm.idle_at 0)))
     = [Alarm.mk_msg Alarm.OPENTHREAD_XTIMER_MSG_TYPE_EVENT].
Proof.
  split.
  - refine (proj2 (proj1 (stop_cancels_scheduled_alarm 0 5 9000 (Alarm.idle_at 0)) _)).
    vm_compute. discriminate.
  - refine (proj1 (proj2 (stop_cancels_scheduled_alarm 0 0 9000 (Alarm.idle_at 0)))
              _ _).
    + reflexivity.
    + vm_compute. lia.
Defined.

Lemma timer_thread_drains_queue_witness :
  Alarm.alarms_fired
    (snd (Alarm.timer_thread_loop [false; false; false]
            (Alarm.set_queue
               [Alarm.mk_msg Alarm.OPENTHREAD_XTIMER_MSG_TYPE_EVENT; Alarm.mk_msg 7]
               (Alarm.idle_at 0))
            []))
  = 1%nat.
Proof.
  refine (proj2 (proj2 (timer_thread_drains_queue [false; false; false]
            (Alarm.set_queue
               [Alarm.mk_msg Alarm.OPENTHREAD_XTIMER_MSG_TYPE_EVENT; Alarm.mk_msg 7]
               (Alarm.idle_at 0))
            [] _ _))).
  - reflexivity.
  - vm_compute. lia.
Defined.

Lemma alarm_reaches_openthread_witness :
  snd (Alarm.timer_thread_loop [false; false]
         (Alarm.xtimer_advance 5000
            (Alarm.otPlatAlarmMilliStartAt 0 5 (Alarm.idle_at 0))) [])
  = [Alarm.otTaskletsProcess; Alarm.otPlatAlarmMilliFired; Alarm.otTaskletsProcess].
Proof.
  refine (proj1 (proj2 (proj1 (alarm_reaches_openthread 0 5 5000 (Alarm.idle_at 0) []
                                 _) _) _)).
  - reflexivity.
  - split; reflexivity.
  - vm_compute. discriminate.
Defined.

Lemma get_now_until_wrap_witness :
  Alarm.otPlatAlarmMilliGetNow (Alarm.idle_at 1020000)
  <= Alarm.otPlatAlarmMilliGetNow (Alarm.idle_at 1070000).
Proof.
  refine (proj2 (proj2 (get_now_until_wrap (Alarm.idle_at 1020000)
                          (Alarm.idle_at 1070000)) _ _)).
  - vm_compute. split; discriminate.
  - reflexivity.
Defined.
